(** * fastapi-mcp: chunking, tagging, collection and the query tools

    A shallow embedding of the documentation pipeline of the repository:

    - [PyStr]: the Python string operations the code calls
      ([str.lower], [str.strip], [in], [str.replace], [str(int)]).
    - [Re]: the fragment of Python's [re] the tag tables are written in.
    - [PyPath]: [pathlib]'s [stem], [with_suffix('')] and [str].
    - [Processor]: [src/document_processor.py].
    - [Fetcher]: [src/document_fetcher.py].
    - [Monolith]: the same pipeline as embedded in [fastapi_mcp_server.py].
    - [Engine], [Server], [Loader]: [search_engine.py], [mcp_server.py],
      [data_loader.py].

    A character is a code point below 256 (Rocq's [ascii]); text beyond
    Latin-1 is outside the model.  The Markdown renderer and the HTML
    parser are collaborators: a file is given by the element stream that
    [soup.find_all] returns for it, or by the exception raised on the way.
    The collector keeps its log lines, in order; the other components
    log without any effect on what they return, and their log is left
    out. *)

From Stdlib Require Import Ascii String List Bool Arith ZArith Lia.
From Stdlib Require Import DecimalString DecimalNat Floats.
From stdpp Require Import base gmap strings list.
Import ListNotations.

Local Open Scope string_scope.
Local Open Scope list_scope.

(** ** Python exceptions *)

(** A call either returns a value or raises; [Raise msg] carries [str(e)]. *)
Inductive outcome (A : Type) : Type :=
| Ret (a : A)
| Raise (msg : string).
Arguments Ret {A} a.
Arguments Raise {A} msg.

#[global] Instance outcome_ret : MRet outcome := fun A a => Ret a.

(** Sequencing: the first exception aborts what follows. *)
#[global] Instance outcome_bind : MBind outcome := fun A B f m =>
  match m with
  | Ret a => f a
  | Raise msg => Raise msg
  end.

(** [try: m  except Exception as e: h(str(e))] *)
Definition try_except {A} (m : outcome A) (h : string -> outcome A) : outcome A :=
  match m with
  | Ret a => Ret a
  | Raise msg => h msg
  end.

(** A call that may also change the world around the process (the
    cluster, the working copy): the world is threaded through, and an
    exception leaves it as it was when the exception was raised. *)
Definition M (C A : Type) : Type := C -> outcome A * C.

#[global] Instance M_ret {C} : MRet (M C) := fun A a c => (Ret a, c).

#[global] Instance M_bind {C} : MBind (M C) := fun A B f m c =>
  match m c with
  | (Ret a, c') => f a c'
  | (Raise msg, c') => (Raise msg, c')
  end.

(** [try: m  except Exception as e: h(str(e))] for such calls *)
Definition try_M {C A} (m : M C A) (h : string -> M C A) : M C A := fun c =>
  match m c with
  | (Ret a, c') => (Ret a, c')
  | (Raise msg, c') => h msg c'
  end.

(** [for x in xs: f(x)], collecting the results *)
Fixpoint for_each {C A B} (f : A -> M C B) (xs : list A) : M C (list B) :=
  match xs with
  | [] => mret []
  | x :: rest => y ← f x; ys ← for_each f rest; mret (y :: ys)
  end.

(** ** Python strings *)

Module PyStr.

Definition code (c : ascii) : nat := nat_of_ascii c.

Definition between (lo hi n : nat) : bool := Nat.leb lo n && Nat.leb n hi.

(** [str.isspace] on one character; also the class [\s] of [re]. *)
Definition isspace (c : ascii) : bool :=
  let n := code c in
  between 9 13 n || between 28 32 n || Nat.eqb n 133 || Nat.eqb n 160.

(** The class [\w] of [re] for [str] patterns: alphanumeric or [_]. *)
Definition isword (c : ascii) : bool :=
  let n := code c in
  between 48 57 n || between 65 90 n || Nat.eqb n 95 || between 97 122 n
  || Nat.eqb n 170 || between 178 179 n || Nat.eqb n 181 || between 185 186 n
  || between 188 190 n || between 192 214 n || between 216 246 n
  || between 248 255 n.

Definition lower_char (c : ascii) : ascii :=
  let n := code c in
  if between 65 90 n || between 192 214 n || between 216 222 n
  then ascii_of_nat (n + 32) else c.

(** [s.lower()] *)
Fixpoint lower (s : string) : string :=
  match s with
  | EmptyString => EmptyString
  | String c s' => String (lower_char c) (lower s')
  end.

Definition nonempty (s : string) : bool :=
  match s with EmptyString => false | String _ _ => true end.

Fixpoint lstrip (s : string) : string :=
  match s with
  | EmptyString => EmptyString
  | String c s' => if isspace c then lstrip s' else s
  end.

Fixpoint rstrip (s : string) : string :=
  match s with
  | EmptyString => EmptyString
  | String c s' =>
      let r := rstrip s' in
      if isspace c && negb (nonempty r) then EmptyString else String c r
  end.

(** [s.strip()] *)
Definition strip (s : string) : string := rstrip (lstrip s).

(** [len(s)] *)
Definition len (s : string) : nat := String.length s.

(** [w in s] *)
Fixpoint contains (w s : string) : bool :=
  String.prefix w s
  || match s with
     | EmptyString => false
     | String _ s' => contains w s'
     end.

(** [s.replace(a, b)] for one-character [a] and [b] *)
Fixpoint replace_char (a b : ascii) (s : string) : string :=
  match s with
  | EmptyString => EmptyString
  | String c s' =>
      String (if Ascii.eqb c a then b else c) (replace_char a b s')
  end.

(** [str(n)] for a non-negative [int] *)
Definition of_nat (n : nat) : string :=
  NilEmpty.string_of_uint (Nat.to_uint n).

(** [sep.join(parts)] *)
Fixpoint join (sep : string) (parts : list string) : string :=
  match parts with
  | [] => ""
  | [p] => p
  | p :: rest => p +:+ sep +:+ join sep rest
  end.

(** [a or b] on strings *)
Definition or_else (a b : string) : string := if nonempty a then a else b.

End PyStr.

(** ** The regular expressions of the tag table *)

Module Re.
Import PyStr.

(** The constructs that occur in [tag_patterns] and in the section
    clean-up: literal text, [.*], [\b], concatenation, alternation. *)
Inductive regex : Type :=
| Str (w : string)
| AnyStar
| WordB
| Seq (r1 r2 : regex)
| Alt (r1 r2 : regex).

Definition newline : ascii := ascii_of_nat 10.

Definition word_before (prev : option ascii) : bool :=
  match prev with Some c => isword c | None => false end.

Definition word_after (s : string) : bool :=
  match s with String c _ => isword c | EmptyString => false end.

(** [\b]: exactly one side is a word character. *)
Definition at_boundary (prev : option ascii) (s : string) : bool :=
  xorb (word_before prev) (word_after s).

Definition cont : Type := option ascii -> string -> bool.

Fixpoint str_match (w : string) (prev : option ascii) (s : string) (k : cont) : bool :=
  match w with
  | EmptyString => k prev s
  | String c w' =>
      match s with
      | EmptyString => false
      | String d s' => if Ascii.eqb c d then str_match w' (Some d) s' k else false
      end
  end.

(** [.] does not match a newline. *)
Fixpoint any_star (prev : option ascii) (s : string) (k : cont) : bool :=
  k prev s
  || match s with
     | EmptyString => false
     | String d s' => if Ascii.eqb d newline then false else any_star (Some d) s' k
     end.

(** [re_match r prev s k]: [r] matches a prefix of [s] (the character
    before being [prev]) and [k] accepts what follows. *)
Fixpoint re_match (r : regex) (prev : option ascii) (s : string) (k : cont) : bool :=
  match r with
  | Str w => str_match w prev s k
  | AnyStar => any_star prev s k
  | WordB => at_boundary prev s && k prev s
  | Seq r1 r2 => re_match r1 prev s (fun p t => re_match r2 p t k)
  | Alt r1 r2 => re_match r1 prev s k || re_match r2 prev s k
  end.

Definition accept : cont := fun _ _ => true.

Fixpoint search_from (r : regex) (prev : option ascii) (s : string) : bool :=
  re_match r prev s accept
  || match s with
     | EmptyString => false
     | String d s' => search_from r (Some d) s'
     end.

(** [re.search(r, s)] as a truth value *)
Definition search (r : regex) (s : string) : bool := search_from r None s.

(** [re.sub('[^...]', '', s)] for a character class given by [keep] *)
Fixpoint sub_outside (keep : ascii -> bool) (s : string) : string :=
  match s with
  | EmptyString => EmptyString
  | String c s' =>
      if keep c then String c (sub_outside keep s') else sub_outside keep s'
  end.

(** [\bw\b] *)
Definition word (r : regex) : regex := Seq WordB (Seq r WordB).

(** [a.*b] *)
Definition then_later (a b : string) : regex := Seq (Str a) (Seq AnyStar (Str b)).

End Re.

(** ** pathlib *)

Module PyPath.
Import PyStr.

(** A path is the list of its components. *)
Definition path : Type := list string.

(** [Path.name] *)
Definition name (p : path) : string := List.last p "".

(** [s.rfind(c)]; [None] stands for [-1]. *)
Fixpoint rfind (c : ascii) (s : string) : option nat :=
  match s with
  | EmptyString => None
  | String d s' =>
      match rfind c s' with
      | Some i => Some (S i)
      | None => if Ascii.eqb d c then Some 0 else None
      end
  end.

(** [Path.stem]: the name up to its last dot, when that dot is neither
    the first nor the last character. *)
Definition stem (p : path) : string :=
  let n := name p in
  match rfind "." n with
  | Some i => if Nat.ltb 0 i && Nat.ltb i (len n - 1) then substring 0 i n else n
  | None => n
  end.

(** [Path.with_suffix('')] *)
Definition with_suffix_empty (p : path) : path :=
  List.removelast p ++ [stem p].

(** [str(p)] for a relative POSIX path *)
Definition str (p : path) : string := join "/" p.

(** [s.split(sep)] for a one-character separator *)
Fixpoint split (sep : ascii) (s : string) : list string :=
  match s with
  | EmptyString => [""]
  | String c s' =>
      if Ascii.eqb c sep then "" :: split sep s'
      else match split sep s' with
           | piece :: pieces => String c piece :: pieces
           | [] => [String c ""]
           end
  end.

(** The number of separators a string starts with. *)
Fixpoint leading (sep : ascii) (s : string) : nat :=
  match s with
  | String c s' => if Ascii.eqb c sep then S (leading sep s') else 0
  | EmptyString => 0
  end.

(** How [Path(s)] reads a string: the root is ["/"] for a string that
    starts with a slash, ["//"] when it starts with exactly two, and the
    components are the pieces between slashes that are neither empty
    nor a single dot. *)
Definition root_of (s : string) : string :=
  match leading "/" s with
  | 0 => ""
  | 2 => "//"
  | _ => "/"
  end.

Definition parts_of (s : string) : path :=
  List.filter (fun piece => negb (String.eqb piece "" || String.eqb piece "."))
    (split "/" s).

(** [str(p)] for a path with its root: the root and the components
    joined by slashes, ["."] for the empty path. *)
Definition render (root : string) (parts : path) : string :=
  match root, parts with
  | EmptyString, [] => "."
  | _, _ => root +:+ join "/" parts
  end.

End PyPath.

(** ** interfaces.py *)

Module Interfaces.

Record DocumentChunk : Type := mkDocumentChunk {
  id : string;
  title : string;
  content : string;
  url : string;
  section : string;
  subsection : string;
  tags : list string;
  embedding_text : string
}.

(** The dictionaries that come back from the index: a stored document
    is the dumped chunk with its [indexed_at] stamp, a hit wraps one
    with a score and, when the engine sends them, highlight fragments. *)
Record source : Type := mkSource {
  doc : DocumentChunk;
  indexed_at : string
}.

Record hit : Type := mkHit {
  _source : source;
  _score : PrimFloat.float;
  highlight : option (list (string * list string))
}.

(** [ISearchEngine], without [close]. *)
Record ISearchEngine (C : Type) : Type := mkSearchEngine {
  create_index : M C unit;
  index_documents : list DocumentChunk -> M C unit;
  search_documents : string -> option (list string) -> Z -> M C (list hit);
  get_document_by_id : string -> M C (option source)
}.
Arguments create_index {C}.
Arguments index_documents {C}.
Arguments search_documents {C}.
Arguments get_document_by_id {C}.

(** [IDocumentFetcher], without [close]. *)
Record IDocumentFetcher (C : Type) : Type := mkFetcher {
  clone_or_update_repo : M C unit;
  extract_documents : M C (list DocumentChunk)
}.
Arguments clone_or_update_repo {C}.
Arguments extract_documents {C}.

End Interfaces.

(** ** [list(set(tags))]

    Python leaves the iteration order of a set unspecified, and for a set
    of strings it changes from one interpreter run to the next (hash
    randomisation).  An order is some way to list the elements of a set,
    each exactly once. *)

Class PySetOrder : Type := {
  set_to_list : gset string -> list string;
  set_to_list_perm : forall s, set_to_list s ≡ₚ elements s
}.

#[global] Instance canonical_order : PySetOrder :=
  {| set_to_list := elements;
     set_to_list_perm := fun s => Permutation_refl (elements s) |}.

Definition reversed_order : PySetOrder :=
  {| set_to_list := fun s => rev (elements s);
     set_to_list_perm := fun s => Permutation_sym (Permutation_rev (elements s)) |}.

(** ** document_processor.py *)

Module Processor.
Import PyStr Re.
Import Interfaces.

(** The vocabulary, in the order of the dict literal. *)
Definition tag_patterns : list (string * list regex) :=
  [ ("api", [Str "@app."; Str "router"; Str "endpoint"; Str "path"]);
    ("http-methods",
      [word (Alt (Str "get") (Alt (Str "post") (Alt (Str "put")
         (Alt (Str "delete") (Str "patch")))))]);
    ("pydantic", [Str "pydantic"; Str "basemodel"]);
    ("async", [word (Str "async"); word (Str "await")]);
    ("dependencies", [Str "dependency"; Str "depends"]);
    ("security", [Str "security"; word (Str "auth")]);
    ("database", [Str "database"; word (Str "sql")]);
    ("testing", [word (Str "test")]);
    ("deployment", [Str "deploy"; Str "docker"]);
    ("validation", [Str "validat"; Str "schema"]);
    ("middleware", [Str "middleware"]);
    ("cors", [word (Str "cors")]);
    ("websocket", [Str "websocket"]);
    ("background-tasks", [then_later "background" "task"]);
    ("file-upload", [then_later "file" "upload"; Str "uploadfile"]) ].

(** [any(re.search(pattern, content_lower) for pattern in patterns)] *)
Definition any_pattern (patterns : list regex) (content_lower : string) : bool :=
  existsb (fun pattern => search pattern content_lower) patterns.

(** The loop over [tag_patterns.items()]. *)
Definition pattern_tags (content_lower : string) : list string :=
  map fst (List.filter (fun entry => any_pattern (snd entry) content_lower) tag_patterns).

(** The class [[\w\s-]]: what [re.sub(r'[^\w\s-]', '', _)] keeps. *)
Definition keep_char (c : ascii) : bool :=
  isword c || isspace c || Ascii.eqb c "-".

(** [re.sub(r'[^\w\s-]', '', section_lower).replace(' ', '-')] *)
Definition section_tag (section_lower : string) : string :=
  replace_char " " "-" (sub_outside keep_char section_lower).

(** The list [tags] as it stands before [list(set(tags))]. *)
Definition collected_tags (content section : string) : list string :=
  let content_lower := lower content in
  let section_lower := lower section in
  let tags := pattern_tags content_lower in
  if nonempty section_lower then
    let section_tag := section_tag section_lower in
    if nonempty section_tag then tags ++ [section_tag] else tags
  else tags.

Definition extract_tags `{PySetOrder} (content section : string) : list string :=
  set_to_list (list_to_set (collected_tags content section)).

(** The names [soup.find_all] is asked for. *)
Inductive elem_name : Type :=
| h1 | h2 | h3 | h4 | h5 | h6 | p | pre | ul | ol.

Record element : Type := mkElement {
  name : elem_name;
  get_text : string
}.

(** [element.name.startswith('h')] *)
Definition startswith_h (n : elem_name) : bool :=
  match n with
  | h1 | h2 | h3 | h4 | h5 | h6 => true
  | p | pre | ul | ol => false
  end.

(** [int(element.name[1])]: the second character, read as a digit
    (for [p], [pre], [ul], [ol] it is not one and [int] would raise;
    the code only asks after [startswith_h]). *)
Definition level (n : elem_name) : nat :=
  match n with
  | h1 => 1 | h2 => 2 | h3 => 3 | h4 => 4 | h5 => 5 | h6 => 6
  | p | pre | ul | ol => 0
  end.

(** [element.name in ['p', 'pre', 'ul', 'ol']] *)
Definition is_content (n : elem_name) : bool :=
  match n with
  | p | pre | ul | ol => true
  | _ => false
  end.

(** The loop variables of [process_markdown_file]. *)
Record state : Type := mkState {
  chunks : list DocumentChunk;
  current_section : string;
  current_subsection : string
}.

Definition init : state :=
  {| chunks := []; current_section := ""; current_subsection := "" |}.

Section File.
Context `{PySetOrder}.
(** [file_path_obj.stem] and [base_url] are fixed for one file. *)
Variable file_stem : string.
Variable base_url : string.

Definition make_chunk (st : state) (text_content : string) : DocumentChunk :=
  {| id := file_stem +:+ "#" +:+ of_nat (length (chunks st));
     title := or_else (current_subsection st)
                (or_else (current_section st) file_stem);
     content := text_content;
     url := base_url;
     section := current_section st;
     subsection := current_subsection st;
     tags := extract_tags text_content (current_section st);
     embedding_text :=
       current_section st +:+ " " +:+ current_subsection st +:+ " " +:+ text_content |}.

(** One iteration of the [for element in ...] loop. *)
Definition step (st : state) (e : element) : state :=
  if startswith_h (name e) then
    let level := level (name e) in
    if Nat.leb level 2 then
      {| chunks := chunks st;
         current_section := strip (get_text e);
         current_subsection := "" |}
    else if Nat.leb level 4 then
      {| chunks := chunks st;
         current_section := current_section st;
         current_subsection := strip (get_text e) |}
    else st
  else if is_content (name e) then
    let text_content := strip (get_text e) in
    if Nat.ltb 50 (len text_content) then
      {| chunks := chunks st ++ [make_chunk st text_content];
         current_section := current_section st;
         current_subsection := current_subsection st |}
    else st
  else st.

Definition run (st : state) (elements : list element) : state :=
  fold_left step elements st.

(** The loop, from the initial values of the three variables. *)
Definition chunk_elements (elements : list element) : list DocumentChunk :=
  chunks (run init elements).

End File.

(** [process_markdown_file(file_path, base_url)]: [rendered] is what
    reading the file, [markdown] and [find_all] give, or the exception
    one of them raises. *)
Definition process_markdown_file `{PySetOrder} (file_path : PyPath.path)
    (base_url : string) (rendered : outcome (list element))
    : outcome (list DocumentChunk) :=
  elements ← rendered;
  mret (chunk_elements (PyPath.stem file_path) base_url elements).

End Processor.

(** ** document_fetcher.py *)

Module Fetcher.
Import PyStr.
Import Interfaces.

(** One file found by [docs_path.rglob("*.md")]: the directories
    below [docs/en] that lead to it, its name, and what reading and
    rendering it gives. *)
Record md_file : Type := mkFile {
  parents : list string;
  file_name : string;
  rendered : outcome (list Processor.element)
}.

(** [md_file.relative_to(docs_path)] *)
Definition rel_path (f : md_file) : PyPath.path := parents f ++ [file_name f].

Section Collector.
Context `{PySetOrder}.
Variable repo_path : string.
Variable base_docs_url : string.

(** [self.repo_path / "docs" / "en"], where [self.repo_path] is
    [Path(repo_path)]: its components. *)
Definition docs_path : PyPath.path := PyPath.parts_of repo_path ++ ["docs"; "en"].

(** The components of the path [rglob] yields for the file. *)
Definition full_path (f : md_file) : PyPath.path := docs_path ++ rel_path f.

(** [str(md_file)]: the path [rglob] yields, as it is printed and as it
    is handed to the processor. *)
Definition shown (f : md_file) : string :=
  PyPath.render (PyPath.root_of repo_path) (full_path f).

(** [f"{self.base_docs_url}/{rel_path.with_suffix('')}"] *)
Definition base_url (f : md_file) : string :=
  base_docs_url +:+ "/" +:+ PyPath.str (PyPath.with_suffix_empty (rel_path f)).

(** The body of the [try] for one file. *)
Definition process (f : md_file) : outcome (list DocumentChunk) :=
  Processor.process_markdown_file (full_path f) (base_url f) (rendered f).

(** What one file adds to [docs]: the chunks the processor returns,
    nothing when it raises. *)
Definition file_chunks (f : md_file) : list DocumentChunk :=
  match process f with
  | Ret content => content
  | Raise _ => []
  end.

(** [docs] and the log, as the loop goes. *)
Definition acc : Type := (list DocumentChunk * list string)%type.

(** One iteration: [docs.extend(content)] when [content] is truthy,
    a log line when the body raised. *)
Definition visit (a : acc) (f : md_file) : acc :=
  match process f with
  | Ret content =>
      match content with
      | [] => a
      | _ :: _ => (fst a ++ content, snd a)
      end
  | Raise e =>
      (fst a,
       snd a ++ ["Error processing " +:+ shown f +:+ ": " +:+ e])
  end.

(** [extract_documents()]: [tree] is [None] when [docs/en] does not
    exist, else the files in the order [rglob] yields them. *)
Definition extract_documents (tree : option (list md_file)) : acc :=
  match tree with
  | None => ([], ["English docs directory not found in repository"])
  | Some files =>
      let a := fold_left visit files ([], []) in
      (fst a,
       snd a ++ ["Extracted " +:+ of_nat (length (fst a))
                 +:+ " documentation chunks from repository"])
  end.

End Collector.

End Fetcher.

(** ** fastapi_mcp_server.py: the pipeline inside the server entry point *)

Module Monolith.
Import PyStr.
Import Interfaces.

Definition FASTAPI_DOCS_URL : string := "https://fastapi.tiangolo.com".
Definition TEMP_REPO_PATH : string := "/tmp/fastapi_repo".

(** [any(word in content_lower for word in words)] *)
Definition any_word (words : list string) (content_lower : string) : bool :=
  existsb (fun word => contains word content_lower) words.

(** The nine [if ...: tags.append(...)] statements, in order. *)
Definition keyword_tags (content_lower : string) : list string :=
  (if any_word ["@app."; "router"; "endpoint"; "path"] content_lower
   then ["api"] else [])
  ++ (if any_word ["get"; "post"; "put"; "delete"; "patch"] content_lower
      then ["http-methods"] else [])
  ++ (if contains "pydantic" content_lower || contains "basemodel" content_lower
      then ["pydantic"] else [])
  ++ (if contains "async" content_lower || contains "await" content_lower
      then ["async"] else [])
  ++ (if contains "dependency" content_lower || contains "depends" content_lower
      then ["dependencies"] else [])
  ++ (if contains "security" content_lower || contains "auth" content_lower
      then ["security"] else [])
  ++ (if contains "database" content_lower || contains "sql" content_lower
      then ["database"] else [])
  ++ (if contains "test" content_lower then ["testing"] else [])
  ++ (if contains "deploy" content_lower || contains "docker" content_lower
      then ["deployment"] else []).

Definition collected_tags (content section : string) : list string :=
  let content_lower := lower content in
  let section_lower := lower section in
  let tags := keyword_tags content_lower in
  if nonempty section_lower
  then tags ++ [replace_char " " "-" section_lower]
  else tags.

Definition _extract_tags `{PySetOrder} (content section : string) : list string :=
  set_to_list (list_to_set (collected_tags content section)).

Section File.
Context `{PySetOrder}.
(** [rel_path]: the file's path relative to [docs/en]. *)
Variable rel_path : PyPath.path.

Definition base_url : string :=
  FASTAPI_DOCS_URL +:+ "/" +:+ PyPath.str (PyPath.with_suffix_empty rel_path).

Definition make_chunk (st : Processor.state) (text_content : string) : DocumentChunk :=
  let current_section := Processor.current_section st in
  let current_subsection := Processor.current_subsection st in
  {| id := PyPath.str rel_path +:+ "#" +:+ of_nat (length (Processor.chunks st));
     title := or_else current_subsection
                (or_else current_section (PyPath.stem rel_path));
     content := text_content;
     url := base_url;
     section := current_section;
     subsection := current_subsection;
     tags := _extract_tags text_content current_section;
     embedding_text :=
       current_section +:+ " " +:+ current_subsection +:+ " " +:+ text_content |}.

Definition step (st : Processor.state) (e : Processor.element) : Processor.state :=
  if Processor.startswith_h (Processor.name e) then
    let level := Processor.level (Processor.name e) in
    if Nat.leb level 2 then
      {| Processor.chunks := Processor.chunks st;
         Processor.current_section := strip (Processor.get_text e);
         Processor.current_subsection := "" |}
    else if Nat.leb level 4 then
      {| Processor.chunks := Processor.chunks st;
         Processor.current_section := Processor.current_section st;
         Processor.current_subsection := strip (Processor.get_text e) |}
    else st
  else if Processor.is_content (Processor.name e) then
    let text_content := strip (Processor.get_text e) in
    if Nat.ltb 50 (len text_content) then
      {| Processor.chunks := Processor.chunks st ++ [make_chunk st text_content];
         Processor.current_section := Processor.current_section st;
         Processor.current_subsection := Processor.current_subsection st |}
    else st
  else st.

Definition _process_markdown_file (rendered : outcome (list Processor.element))
    : outcome (list DocumentChunk) :=
  elements ← rendered;
  mret (Processor.chunks (fold_left step elements Processor.init)).

End File.

(** [extract_docs_from_repo()], with the log left out. *)
Definition extract_docs_from_repo `{PySetOrder} (tree : option (list Fetcher.md_file))
    : list DocumentChunk :=
  match tree with
  | None => []
  | Some files =>
      fold_left
        (fun docs f =>
           match _process_markdown_file (Fetcher.rel_path f) (Fetcher.rendered f) with
           | Ret content =>
               match content with
               | [] => docs
               | _ :: _ => docs ++ content
               end
           | Raise _ => docs
           end)
        files []
  end.

End Monolith.

(** ** search_engine.py *)

Module Engine.
Import Interfaces.

(** One entry of the list handed to [async_bulk]. *)
Record action : Type := mkAction {
  _index : string;
  _id : string;
  action_source : source
}.

(** The parts of [search_body] that depend on the arguments. *)
Record search_body : Type := mkBody {
  query : string;
  filter_tags : option (list string);
  size : Z
}.

(** The Elasticsearch client and the clock, as the engine uses them.
    Each call may raise. *)
Record es_client (C : Type) : Type := mkClient {
  indices_exists : string -> M C bool;
  indices_delete : string -> M C unit;
  indices_create : string -> M C unit;
  async_bulk : list action -> M C (nat * list string);
  es_search : string -> search_body -> M C (list hit);
  es_get : string -> string -> M C source;
  utcnow_isoformat : M C string
}.
Arguments indices_exists {C}.
Arguments indices_delete {C}.
Arguments indices_create {C}.
Arguments async_bulk {C}.
Arguments es_search {C}.
Arguments es_get {C}.
Arguments utcnow_isoformat {C}.

Section ElasticsearchEngine.
Context {C : Type}.
Variable es : es_client C.
Variable index_name : string.

(** The handler only logs and raises again. *)
Definition create_index : M C unit :=
  try_M
    (present ← indices_exists es index_name;
     _ ← (if present : bool then indices_delete es index_name else mret tt);
     indices_create es index_name)
    (fun e c => (Raise e, c)).

Definition index_documents (documents : list DocumentChunk) : M C unit :=
  actions ← for_each
    (fun d =>
       now ← utcnow_isoformat es;
       mret {| _index := index_name;
               _id := id d;
               action_source := {| doc := d; indexed_at := now |} |})
    documents;
  try_M
    (_ ← async_bulk es actions; mret tt)
    (fun e c => (Raise e, c)).

(** [if tags:] is false for [None] and for the empty list. *)
Definition tags_filter (tags : option (list string)) : option (list string) :=
  match tags with
  | Some (t :: ts) => Some (t :: ts)
  | Some [] | None => None
  end.

Definition search_documents (query : string) (tags : option (list string))
    (size : Z) : M C (list hit) :=
  let search_body :=
    {| query := query; filter_tags := tags_filter tags; size := size |} in
  try_M
    (es_search es index_name search_body)
    (fun _ => mret []).

Definition get_document_by_id (doc_id : string) : M C (option source) :=
  try_M
    (response ← es_get es index_name doc_id; mret (Some response))
    (fun _ => mret None).

Definition ElasticsearchEngine : ISearchEngine C :=
  {| Interfaces.create_index := create_index;
     Interfaces.index_documents := index_documents;
     Interfaces.search_documents := search_documents;
     Interfaces.get_document_by_id := get_document_by_id |}.

End ElasticsearchEngine.

End Engine.

(** ** mcp_server.py *)

Module Server.
Import PyStr.
Import Interfaces.

(** One entry of ["results"]. *)
Record result : Type := mkResult {
  r_id : string;
  r_title : string;
  r_section : string;
  r_subsection : string;
  r_url : string;
  r_tags : list string;
  r_score : PrimFloat.float;
  r_content : string;
  r_highlights : option (list (string * list string))
}.

(** What a tool hands back: a dictionary with the key ["error"], the
    search summary, a stored document, or the loader's report. *)
Inductive response : Type :=
| Error (error : string)
| Results (query : string) (total_results : nat) (results : list result)
| Document (d : source)
| Loaded (status message : string) (document_count : nat).

(** [source["content"][:500] + "..." if len(source["content"]) > 500
     else source["content"]] *)
Definition display (content : string) : string :=
  if Nat.ltb 500 (len content) then substring 0 500 content +:+ "..." else content.

(** The body of [for hit in results]. [hit.get("highlight", {})] is
    empty when the key is absent, and an empty one is not copied. *)
Definition format_hit (h : hit) : result :=
  let source := _source h in
  let highlight := default [] (highlight h) in
  {| r_id := id (doc source);
     r_title := title (doc source);
     r_section := section (doc source);
     r_subsection := subsection (doc source);
     r_url := url (doc source);
     r_tags := tags (doc source);
     r_score := _score h;
     r_content := display (content (doc source));
     r_highlights := match highlight with [] => None | _ :: _ => Some highlight end |}.

Section Tools.
Context {C : Type}.
Variable search_engine : ISearchEngine C.

Definition search_fastapi_docs (query : string) (tags : option (list string))
    (max_results : Z) : M C response :=
  try_M
    (results ← search_documents search_engine query tags max_results;
     let formatted_results := map format_hit results in
     mret (Results query (length formatted_results) formatted_results))
    (fun e => mret (Error ("Search failed: " +:+ e))).

(** [if doc:] — a stored document is never the empty dictionary. *)
Definition get_fastapi_doc_by_id (doc_id : string) : M C response :=
  try_M
    (found ← get_document_by_id search_engine doc_id;
     match found with
     | Some d => mret (Document d)
     | None => mret (Error ("Document with ID '" +:+ doc_id +:+ "' not found"))
     end)
    (fun e => mret (Error ("Failed to get document: " +:+ e))).

End Tools.

End Server.

(** ** data_loader.py *)

Module Loader.
Import PyStr.
Import Interfaces.
Import Server.

Section FastAPIDataLoader.
Context {C : Type}.
Variable fetcher : IDocumentFetcher C.
Variable search_engine : ISearchEngine C.

Definition load_data : M C response :=
  try_M
    (_ ← clone_or_update_repo fetcher;
     documents ← extract_documents fetcher;
     match documents with
     | [] => mret (Error "No documents found in repository")
     | _ :: _ =>
         _ ← Interfaces.create_index search_engine;
         _ ← Interfaces.index_documents search_engine documents;
         mret (Loaded "success"
                 ("Successfully loaded " +:+ of_nat (length documents)
                  +:+ " documentation chunks")
                 (length documents))
     end)
    (fun e => mret (Error ("Data loading failed: " +:+ e))).

Definition refresh_data : M C response := load_data.

End FastAPIDataLoader.

End Loader.

(** ** The specification's wording, where it is compared with the code *)

Module Spec.
Import PyStr.

(** "replace internal whitespace runs with single hyphens": one hyphen
    for each maximal run of whitespace. *)
Fixpoint hyphenate_runs (in_run : bool) (s : string) : string :=
  match s with
  | EmptyString => EmptyString
  | String c s' =>
      if isspace c
      then (if in_run then hyphenate_runs true s'
            else String "-" (hyphenate_runs true s'))
      else String c (hyphenate_runs false s')
  end.

(** "strip characters outside word-characters/whitespace/hyphen,
    lower-case, replace internal whitespace runs with single hyphens" *)
Definition section_tag (section : string) : string :=
  hyphenate_runs false (lower (Re.sub_outside Processor.keep_char section)).

(** A content block is retained when its trimmed text is longer than
    50 characters. *)
Definition retained (e : Processor.element) : bool :=
  Processor.is_content (Processor.name e)
  && Nat.ltb 50 (len (strip (Processor.get_text e))).

(** "most recently seen heading text at levels 1–2", reading the
    blocks before the chunk from the nearest one backwards. *)
Fixpoint section_seen (before_rev : list Processor.element) : string :=
  match before_rev with
  | [] => ""
  | e :: earlier =>
      match Processor.name e with
      | Processor.h1 | Processor.h2 => strip (Processor.get_text e)
      | _ => section_seen earlier
      end
  end.

(** "... and 3–4 respectively, reset when a new top-level section
    begins" *)
Fixpoint subsection_seen (before_rev : list Processor.element) : string :=
  match before_rev with
  | [] => ""
  | e :: earlier =>
      match Processor.name e with
      | Processor.h1 | Processor.h2 => ""
      | Processor.h3 | Processor.h4 => strip (Processor.get_text e)
      | _ => subsection_seen earlier
      end
  end.

(** Whitespace that consists of single spaces only: no other
    whitespace character, no two spaces in a row. *)
Fixpoint single_spaced (after_space : bool) (s : string) : bool :=
  match s with
  | EmptyString => true
  | String c s' =>
      if Ascii.eqb c " " then negb after_space && single_spaced true s'
      else negb (isspace c) && single_spaced false s'
  end.

End Spec.

(** ** What the two pipelines are compared on *)

Module Compare.

(** What the two chunkers are compared on: every field of a chunk
    but [id] and [tags]. *)
Definition body (c : Interfaces.DocumentChunk)
    : string * string * string * string * string * string :=
  (Interfaces.title c, Interfaces.content c, Interfaces.url c,
   Interfaces.section c, Interfaces.subsection c, Interfaces.embedding_text c).

(** The two chunking loops agree on their variables and on the bodies
    of the chunks so far. *)
Definition alike (a b : Processor.state) : Prop :=
  map body (Processor.chunks a) = map body (Processor.chunks b)
  /\ Processor.current_section a = Processor.current_section b
  /\ Processor.current_subsection a = Processor.current_subsection b.

(** What one file adds to [docs] in the server entry point. *)
Definition monolith_chunks `{PySetOrder} (f : Fetcher.md_file)
    : list Interfaces.DocumentChunk :=
  match Monolith._process_markdown_file (Fetcher.rel_path f) (Fetcher.rendered f) with
  | Ret content => content
  | Raise _ => []
  end.

(** A pattern is covered by a list of words when, wherever it matches,
    one of the words starts. *)
Definition covered (pattern : Re.regex) (words : list string) : Prop :=
  forall (prev : option ascii) (s : string),
    Re.re_match pattern prev s Re.accept = true ->
    existsb (fun w => String.prefix w s) words = true.

(** The nine tags both extractors know. *)
Definition shared_vocabulary : list string :=
  ["api"; "http-methods"; "pydantic"; "async"; "dependencies"; "security";
   "database"; "testing"; "deployment"].

End Compare.

(** ** Stand-ins for the collaborators, as the tests have them *)

Module Mock.
Import Interfaces.

(** A cluster that cannot be reached: every client call raises. *)
Definition unreachable : string := "Connection refused".

Definition down_client : Engine.es_client unit :=
  {| Engine.indices_exists := fun _ c => (Raise unreachable, c);
     Engine.indices_delete := fun _ c => (Raise unreachable, c);
     Engine.indices_create := fun _ c => (Raise unreachable, c);
     Engine.async_bulk := fun _ c => (Raise unreachable, c);
     Engine.es_search := fun _ _ c => (Raise unreachable, c);
     Engine.es_get := fun _ _ c => (Raise unreachable, c);
     Engine.utcnow_isoformat := fun c => (Ret "2024-01-01T00:00:00", c) |}.

(** [AsyncMock] with [side_effect = Exception(msg)] on both queries. *)
Definition raising_engine (msg : string) : ISearchEngine unit :=
  {| create_index := fun c => (Ret tt, c);
     index_documents := fun _ c => (Ret tt, c);
     search_documents := fun _ _ _ c => (Raise msg, c);
     get_document_by_id := fun _ c => (Raise msg, c) |}.

(** An in-memory cluster: index name to stored documents by [_id]. *)
Definition cluster : Type := gmap string (gmap string source).

Definition store (docs : gmap string source) (a : Engine.action) : gmap string source :=
  <[Engine._id a := Engine.action_source a]> docs.

Definition to_hit (s : source) : hit :=
  {| _source := s; _score := 1%float; highlight := None |}.

Definition memory_client : Engine.es_client cluster :=
  {| Engine.indices_exists := fun i c => (Ret (bool_decide (is_Some (c !! i))), c);
     Engine.indices_delete := fun i c =>
       match c !! i with
       | Some _ => (Ret tt, delete i c)
       | None => (Raise "index_not_found_exception", c)
       end;
     Engine.indices_create := fun i c =>
       match c !! i with
       | Some _ => (Raise "resource_already_exists_exception", c)
       | None => (Ret tt, <[i := ∅]> c)
       end;
     Engine.async_bulk := fun actions c =>
       (Ret (length actions, []),
        fold_left
          (fun c a => <[Engine._index a := store (default ∅ (c !! Engine._index a)) a]> c)
          actions c);
     Engine.es_search := fun i b c =>
       match c !! i with
       | Some docs =>
           (Ret (map to_hit
                   (List.filter
                      (fun s => PyStr.contains (Engine.query b) (content (doc s)))
                      (map snd (map_to_list docs)))), c)
       | None => (Raise "index_not_found_exception", c)
       end;
     Engine.es_get := fun i d c =>
       match c !! i ≫= (fun docs => docs !! d) with
       | Some s => (Ret s, c)
       | None => (Raise "NotFoundError(404)", c)
       end;
     Engine.utcnow_isoformat := fun c => (Ret "2024-01-01T00:00:00", c) |}.

(** Call recording, as [assert_called] reads it: the world is paired
    with the names of the engine methods called so far. *)
Definition recorded {C A} (name : string) (m : M C A) : M (C * list string) A :=
  fun w => let r := m (fst w) in (fst r, (snd r, snd w ++ [name])).

Definition unrecorded {C A} (m : M C A) : M (C * list string) A :=
  fun w => let r := m (fst w) in (fst r, (snd r, snd w)).

Definition recording {C} (e : ISearchEngine C) : ISearchEngine (C * list string) :=
  {| create_index := recorded "create_index" (create_index e);
     index_documents := fun ds => recorded "index_documents" (index_documents e ds);
     search_documents := fun q t n => recorded "search_documents" (search_documents e q t n);
     get_document_by_id := fun d => recorded "get_document_by_id" (get_document_by_id e d) |}.

Definition beside {C} (f : IDocumentFetcher C) : IDocumentFetcher (C * list string) :=
  {| clone_or_update_repo := unrecorded (clone_or_update_repo f);
     extract_documents := unrecorded (extract_documents f) |}.

(** A fetcher whose repository has no document. *)
Definition empty_fetcher {C} : IDocumentFetcher C :=
  {| clone_or_update_repo := fun c => (Ret tt, c);
     extract_documents := fun c => (Ret [], c) |}.

End Mock.

(** ** Sample inputs *)

Module Sample.
Import Processor.

(** 51 characters, and the same with one fewer. *)
Definition text51 : string := "abcdefghijklmnopqrstuvwxyzabcdefghijklmnopqrstuvwxy".
Definition text50 : string := "abcdefghijklmnopqrstuvwxyzabcdefghijklmnopqrstuvwx".

Definition paragraph_a : string :=
  "FastAPI is a modern, fast web framework for building services.".
Definition paragraph_b : string :=
  "Every parameter is declared with standard Python type hints.".

(** [H1("Intro"), P(A), H3("Details"), P(B)] *)
Definition intro_details : list element :=
  [ mkElement h1 "Intro"; mkElement p paragraph_a;
    mkElement h3 "Details"; mkElement p paragraph_b ].

(** Two guides, each with its own [index.md]. *)
Definition two_indexes : list Fetcher.md_file :=
  [ Fetcher.mkFile ["tutorial"] "index.md" (Ret [mkElement p paragraph_a]);
    Fetcher.mkFile ["advanced"] "index.md" (Ret [mkElement p paragraph_b]) ].

Definition stored : Interfaces.source :=
  {| Interfaces.doc :=
       {| Interfaces.id := "index#0"; Interfaces.title := "index";
          Interfaces.content := paragraph_a;
          Interfaces.url := "https://fastapi.tiangolo.com/index";
          Interfaces.section := ""; Interfaces.subsection := "";
          Interfaces.tags := []; Interfaces.embedding_text := "  " +:+ paragraph_a |};
     Interfaces.indexed_at := "2024-01-01T00:00:00" |}.

(** A cluster that already holds the index, with one document. *)
Definition loaded_cluster : Mock.cluster :=
  {[ "fastapi_docs" := {[ "index#0" := stored ]} ]}.

End Sample.

(** A step that touches nothing: it returns or raises in the world as
    it is. *)
Definition pure_step {C A} (o : outcome A) : M C A := fun c => (o, c).

(** ** document_fetcher.py: the working copy *)

Module Repo.
Import Interfaces.

(** What the fetcher asks of git and of the file system.  [tree] is
    what [docs/en] holds in a given world, as [Fetcher.extract_documents]
    reads it. *)
Record git_client (C : Type) : Type := mkGit {
  path_exists : M C bool;
  pull : M C unit;
  mkdir_parents : M C unit;
  clone_from : M C unit;
  tree : C -> option (list Fetcher.md_file)
}.
Arguments path_exists {C}.
Arguments pull {C}.
Arguments mkdir_parents {C}.
Arguments clone_from {C}.
Arguments tree {C}.

Section FastAPIDocumentFetcher.
Context `{PySetOrder} {C : Type}.
Variable git : git_client C.
Variable repo_path : string.
Variable base_docs_url : string.

(** The handler only logs and raises again. *)
Definition clone_or_update_repo : M C unit :=
  try_M
    (present ← path_exists git;
     if present : bool then pull git
     else (_ ← mkdir_parents git; clone_from git))
    (fun e c => (Raise e, c)).

(** [extract_documents()] in a world: the chunks, without the log. *)
Definition extract_documents : M C (list DocumentChunk) :=
  fun c => (Ret (fst (Fetcher.extract_documents repo_path base_docs_url (tree git c))), c).

Definition FastAPIDocumentFetcher : IDocumentFetcher C :=
  {| Interfaces.clone_or_update_repo := clone_or_update_repo;
     Interfaces.extract_documents := extract_documents |}.

End FastAPIDocumentFetcher.

End Repo.

(** ** mcp_server.py: the other two tools *)

Module Tools.
Import Interfaces.

(** [IDataLoader] *)
Record IDataLoader (C : Type) : Type := mkDataLoader {
  load_data : M C Server.response;
  refresh_data : M C Server.response
}.
Arguments load_data {C}.
Arguments refresh_data {C}.

Definition FastAPIDataLoader {C} (fetcher : IDocumentFetcher C)
    (search_engine : ISearchEngine C) : IDataLoader C :=
  {| load_data := Loader.load_data fetcher search_engine;
     refresh_data := Loader.refresh_data fetcher search_engine |}.

(** [return await self.data_loader.refresh_data()], with no handler. *)
Definition refresh_fastapi_docs {C} (data_loader : IDataLoader C) : M C Server.response :=
  refresh_data data_loader.

(** The dictionary under ["tags"], in the order it is written. *)
Definition get_available_tags : list (string * string) :=
  [ ("api", "API endpoints and routing");
    ("http-methods", "HTTP methods (GET, POST, PUT, DELETE, etc.)");
    ("pydantic", "Pydantic models and validation");
    ("async", "Asynchronous programming");
    ("dependencies", "Dependency injection");
    ("security", "Authentication and authorization");
    ("database", "Database integration");
    ("testing", "Testing FastAPI applications");
    ("deployment", "Deployment and Docker");
    ("validation", "Data validation and schemas");
    ("middleware", "Middleware components");
    ("cors", "Cross-Origin Resource Sharing");
    ("websocket", "WebSocket connections");
    ("background-tasks", "Background task processing");
    ("file-upload", "File upload handling") ].

End Tools.

(** ** fastapi_mcp_server.py: the refresh tool and the tag catalogue *)

Module MonolithTools.
Import PyStr.
Import Interfaces.
Import Server.

Section Globals.
Context {C : Type}.
(** The module-level [docs_fetcher] and [es_manager]. *)
Variable docs_fetcher : IDocumentFetcher C.
Variable es_manager : ISearchEngine C.

Definition refresh_fastapi_docs : M C response :=
  try_M
    (_ ← clone_or_update_repo docs_fetcher;
     documents ← extract_documents docs_fetcher;
     match documents with
     | [] => mret (Error "No documents found in repository")
     | _ :: _ =>
         _ ← create_index es_manager;
         _ ← index_documents es_manager documents;
         mret (Loaded "success"
                 ("Successfully indexed " +:+ of_nat (length documents)
                  +:+ " documentation chunks")
                 (length documents))
     end)
    (fun e => mret (Error ("Refresh failed: " +:+ e))).

End Globals.

Definition get_available_tags : list (string * string) :=
  [ ("api", "API endpoints and routing");
    ("http-methods", "HTTP methods (GET, POST, PUT, DELETE, etc.)");
    ("pydantic", "Pydantic models and validation");
    ("async", "Asynchronous programming");
    ("dependencies", "Dependency injection");
    ("security", "Authentication and authorization");
    ("database", "Database integration");
    ("testing", "Testing FastAPI applications");
    ("deployment", "Deployment and Docker") ].

End MonolithTools.

(** ** main.py *)

Module Main.
Import Interfaces.

Definition INDEX_NAME : string := "fastapi_docs".

(** The two log statements after the load: [result['error']] is read
    when the key is there, [result["message"]] otherwise, and a
    dictionary with neither key raises [KeyError]. *)
Definition report (result : Server.response) : outcome unit :=
  match result with
  | Server.Error _ | Server.Loaded _ _ _ => Ret tt
  | Server.Results _ _ _ | Server.Document _ => Raise "'message'"
  end.

(** [startup_initialization]: [es] is the client of the engine built
    for the check, [es_close] its [close()]. *)
Definition startup_initialization {C} (es : Engine.es_client C) (es_close : M C unit)
    (data_loader : Tools.IDataLoader C) : M C unit :=
  try_M
    (present ← Engine.indices_exists es INDEX_NAME;
     _ ← (if present : bool then mret tt
          else (result ← Tools.load_data data_loader;
                pure_step (report result)));
     es_close)
    (fun _ => mret tt).

End Main.

(** ** data_loader_cli.py *)

Module Cli.
Import Interfaces.

(** ["error" in result] *)
Definition has_error (result : Server.response) : bool :=
  match result with
  | Server.Error _ => true
  | _ => false
  end.

(** The [finally] block: both closes in one [try], any exception
    passed over. *)
Definition cleanup {C} (fetcher_close engine_close : M C unit) : M C unit :=
  try_M (_ ← fetcher_close; engine_close) (fun _ => mret tt).

(** The two branches after the load: [False] when the key ["error"]
    is there; else [result['message']] is logged, which raises
    [KeyError] for a dictionary without that key, and [True] is
    returned. *)
Definition verdict (result : Server.response) : outcome bool :=
  if has_error result then Ret false
  else match result with
       | Server.Loaded _ _ _ => Ret true
       | _ => Raise "'message'"
       end.

(** [load_data()]: the value is settled by the [try] and its handler,
    then the [finally] block runs. *)
Definition load_data {C} (data_loader : M C Server.response)
    (fetcher_close engine_close : M C unit) : M C bool :=
  success ← try_M
    (result ← data_loader; pure_step (verdict result))
    (fun _ => mret false);
  _ ← cleanup fetcher_close engine_close;
  mret success.

End Cli.

(** ** Shapes the further properties are stated with *)

Module Shape.
Import PyStr Interfaces.


(** The id the [k]-th chunk of a file gets. *)
Definition nth_id (file_stem : string) (k : nat) : string :=
  file_stem +:+ "#" +:+ of_nat k.

(** What every chunk of a file looks like. *)
Definition chunk_ok `{PySetOrder} (file_stem base_url : string) (c : DocumentChunk) : Prop :=
  50 < len (content c)
  /\ strip (content c) = content c
  /\ strip (section c) = section c
  /\ strip (subsection c) = subsection c
  /\ url c = base_url
  /\ title c = or_else (subsection c) (or_else (section c) file_stem)
  /\ embedding_text c = section c +:+ " " +:+ subsection c +:+ " " +:+ content c
  /\ tags c = Processor.extract_tags (content c) (section c).

(** The log line of a file that raised, none for one that did not. *)
Definition error_lines `{PySetOrder} (repo_path base_docs_url : string)
    (f : Fetcher.md_file) : list string :=
  match Fetcher.process repo_path base_docs_url f with
  | Ret _ => []
  | Raise e =>
      ["Error processing " +:+ Fetcher.shown repo_path f +:+ ": " +:+ e]
  end.

(** The stored form of a chunk on the stand-in, whose clock is fixed. *)
Definition stamped (d : DocumentChunk) : source :=
  {| doc := d; indexed_at := "2024-01-01T00:00:00" |}.

(** The actions [index_documents] has built when it reaches
    [async_bulk]: one for each chunk, in order, under the chunk's id and
    with the time the clock gave when its turn came; [c] is the world
    before the first reading of the clock, the last argument the world
    after the last. *)
Inductive built {C} (es : Engine.es_client C) (index_name : string) :
    list DocumentChunk -> C -> list Engine.action -> C -> Prop :=
| built_nil (c : C) : built es index_name [] c [] c
| built_cons (d : DocumentChunk) (ds : list DocumentChunk) (now : string)
    (actions : list Engine.action) (c c1 c2 : C) :
    Engine.utcnow_isoformat es c = (Ret now, c1) ->
    built es index_name ds c1 actions c2 ->
    built es index_name (d :: ds) c
      (Engine.mkAction index_name (id d) (mkSource d now) :: actions) c2.

(** The loader's report and the report of the refresh tool of the
    server entry point say the same thing, each in its wording. *)
Inductive same_report : Server.response -> Server.response -> Prop :=
| same_empty :
    same_report (Server.Error "No documents found in repository")
                (Server.Error "No documents found in repository")
| same_failed (msg : string) :
    same_report (Server.Error ("Data loading failed: " +:+ msg))
                (Server.Error ("Refresh failed: " +:+ msg))
| same_loaded (n : nat) :
    same_report
      (Server.Loaded "success"
         ("Successfully loaded " +:+ of_nat n +:+ " documentation chunks") n)
      (Server.Loaded "success"
         ("Successfully indexed " +:+ of_nat n +:+ " documentation chunks") n).

End Shape.

(** * Properties *)

(** ** Strings *)

Module PyStrFacts.
Import PyStr.

Lemma lstrip_len (s : string) : len (lstrip s) <= len s.
Proof.
  unfold len. induction s as [|c s IH]; simpl; [lia|].
  destruct (isspace c); simpl; lia.
Qed.

Lemma rstrip_len (s : string) : len (rstrip s) <= len s.
Proof.
  unfold len. induction s as [|c s IH]; simpl; [lia|].
  destruct (isspace c && negb (nonempty (rstrip s))); simpl; lia.
Qed.

Lemma strip_len (s : string) : len (strip s) <= len s.
Proof.
  unfold strip. pose proof (rstrip_len (lstrip s)). pose proof (lstrip_len s). lia.
Qed.

Lemma nonempty_false (s : string) : nonempty s = false -> s = "".
Proof. destruct s; simpl; congruence. Qed.

Lemma append_inv_head (a b c : string) : a +:+ b = a +:+ c -> b = c.
Proof. induction a as [|x a IH]; simpl; [trivial|]. intros [= Heq]. now apply IH. Qed.

(** [str(n)] tells the numbers apart. *)
Lemma of_nat_inj (n m : nat) : of_nat n = of_nat m -> n = m.
Proof.
  unfold of_nat. intros Heq.
  apply (f_equal NilEmpty.uint_of_string) in Heq.
  rewrite !NilEmpty.usu in Heq. injection Heq as Heq.
  now apply DecimalNat.Unsigned.to_uint_inj.
Qed.

End PyStrFacts.

(** ** The chunker *)

Module ProcessorFacts.
Import PyStr Interfaces Processor.

Section File.
Context `{PySetOrder}.
Variable file_stem : string.
Variable base_url : string.

Local Abbreviation step := (step file_stem base_url).
Local Abbreviation run := (run file_stem base_url).
Local Abbreviation make_chunk := (make_chunk file_stem base_url).

Lemma run_app (st : state) (xs ys : list element) :
  run st (xs ++ ys) = run (run st xs) ys.
Proof. apply fold_left_app. Qed.

Lemma run_cons (st : state) (e : element) (es : list element) :
  run st (e :: es) = run (step st e) es.
Proof. reflexivity. Qed.

(** A heading never touches the list of chunks. *)
Lemma step_heading_chunks (st : state) (e : element) :
  startswith_h (name e) = true -> chunks (step st e) = chunks st.
Proof.
  intros Hh. unfold Processor.step. rewrite Hh.
  destruct (Nat.leb (level (name e)) 2); [reflexivity|].
  destruct (Nat.leb (level (name e)) 4); reflexivity.
Qed.

Lemma content_not_heading (n : elem_name) :
  is_content n = true -> startswith_h n = false.
Proof. destruct n; simpl; congruence. Qed.

Lemma heading_or_content (n : elem_name) :
  startswith_h n = negb (is_content n).
Proof. destruct n; reflexivity. Qed.

(** A content block is appended exactly when it is retained. *)
Lemma step_retained (st : state) (e : element) :
  Spec.retained e = true ->
  step st e = {| chunks := chunks st ++ [make_chunk st (strip (get_text e))];
                 current_section := current_section st;
                 current_subsection := current_subsection st |}.
Proof.
  unfold Spec.retained. intros [Hc Hl]%andb_prop.
  unfold Processor.step. rewrite (content_not_heading _ Hc), Hc, Hl. reflexivity.
Qed.

Lemma step_dropped (st : state) (e : element) :
  Spec.retained e = false -> chunks (step st e) = chunks st.
Proof.
  unfold Spec.retained. intros Hr.
  destruct (startswith_h (name e)) eqn:Hh; [now apply step_heading_chunks|].
  unfold Processor.step. rewrite Hh.
  destruct (is_content (name e)); [|reflexivity].
  simpl in Hr. rewrite Hr. reflexivity.
Qed.

Lemma run_contents (elements : list element) (st : state) :
  map content (chunks (run st elements))
  = map content (chunks st)
    ++ map (fun e => strip (get_text e)) (List.filter Spec.retained elements).
Proof.
  revert st. induction elements as [|e es IH]; intros st.
  - simpl. now rewrite app_nil_r.
  - rewrite run_cons, IH. simpl.
    destruct (Spec.retained e) eqn:Hr.
    + rewrite (step_retained _ _ Hr). simpl.
      rewrite map_app. simpl. now rewrite <- app_assoc.
    + now rewrite (step_dropped _ _ Hr).
Qed.

(** The chunks only grow. *)
Lemma run_extends (elements : list element) (st : state) :
  exists extra, chunks (run st elements) = chunks st ++ extra.
Proof.
  revert st. induction elements as [|e es IH]; intros st.
  - exists []. simpl. now rewrite app_nil_r.
  - rewrite run_cons. destruct (IH (step st e)) as [extra ->].
    destruct (Spec.retained e) eqn:Hr.
    + rewrite (step_retained _ _ Hr). simpl. rewrite <- app_assoc. eauto.
    + rewrite (step_dropped _ _ Hr). eauto.
Qed.

Lemma step_section (st : state) (e : element) :
  current_section (step st e)
  = match name e with
    | h1 | h2 => strip (get_text e)
    | _ => current_section st
    end.
Proof.
  unfold Processor.step. destruct e as [n t]. simpl.
  destruct n; simpl; try reflexivity;
    destruct (Nat.ltb 50 (len (strip t))); reflexivity.
Qed.

Lemma step_subsection (st : state) (e : element) :
  current_subsection (step st e)
  = match name e with
    | h1 | h2 => ""
    | h3 | h4 => strip (get_text e)
    | _ => current_subsection st
    end.
Proof.
  unfold Processor.step. destruct e as [n t]. simpl.
  destruct n; simpl; try reflexivity;
    destruct (Nat.ltb 50 (len (strip t))); reflexivity.
Qed.

(** The two variables hold what the headings read so far say. *)
Lemma run_tracks (before : list element) :
  current_section (run init before) = Spec.section_seen (rev before)
  /\ current_subsection (run init before) = Spec.subsection_seen (rev before).
Proof.
  induction before as [|e before [IHs IHu]] using rev_ind; [split; reflexivity|].
  rewrite run_app, rev_app_distr. simpl.
  rewrite step_section, step_subsection, IHs, IHu.
  destruct (name e); split; reflexivity.
Qed.

(** The chunk of a retained block sits right after those of the
    blocks before it, and carries the variables as they stood. *)
Lemma run_emits (before after : list element) (e : element) :
  Spec.retained e = true ->
  chunk_elements file_stem base_url (before ++ e :: after)
    !! length (chunk_elements file_stem base_url before)
  = Some (make_chunk (run init before) (strip (get_text e))).
Proof.
  intros Hr. unfold chunk_elements.
  rewrite run_app, run_cons.
  destruct (run_extends after (step (run init before) e)) as [extra ->].
  rewrite (step_retained _ _ Hr). simpl.
  rewrite <- app_assoc. rewrite lookup_app_r by lia.
  now rewrite Nat.sub_diag.
Qed.

(** The ids of one file count up from the number of chunks so far. *)
Lemma run_ids (elements : list element) (st : state) :
  map id (chunks (run st elements))
  = map id (chunks st)
    ++ map (fun k => file_stem +:+ "#" +:+ of_nat k)
         (seq (length (chunks st)) (length (List.filter Spec.retained elements))).
Proof.
  revert st. induction elements as [|e es IH]; intros st.
  - simpl. now rewrite app_nil_r.
  - rewrite run_cons, IH. simpl. destruct (Spec.retained e) eqn:Hr.
    + rewrite (step_retained _ _ Hr). simpl.
      rewrite map_app, length_app. simpl.
      rewrite <- app_assoc, Nat.add_1_r. reflexivity.
    + now rewrite (step_dropped _ _ Hr).
Qed.

(** Within one file no id is given twice. *)
Lemma ids_distinct_in_file (elements : list element) :
  NoDup (map id (chunk_elements file_stem base_url elements)).
Proof.
  unfold chunk_elements. rewrite run_ids. simpl.
  apply NoDup_ListNoDup, Finite.Injective_map_NoDup; [|apply List.seq_NoDup].
  intros n m Heq.
  apply PyStrFacts.append_inv_head, PyStrFacts.append_inv_head in Heq.
  now apply PyStrFacts.of_nat_inj.
Qed.

End File.

(** C1. For a block of kind paragraph, preformatted, unordered list or
    ordered list the chunker emits a chunk exactly when the trimmed
    text of the block is longer than 50 characters: whatever the state
    of the walk, a trimmed text of more than 50 characters appends one
    chunk holding it and one of at most 50 leaves the chunks as they
    were; over a whole file the contents of the chunks are the trimmed
    texts of the retained blocks, in order; a block whose text has at
    most 50 characters gives no chunk, and one whose trimmed text has
    exactly 51 gives one. *)
Theorem C1_chunk_iff_trimmed_text_exceeds_50 :
  forall (order : PySetOrder) (file_stem base_url : string),
    (forall (st : state) (e : element),
        is_content (name e) = true ->
        (50 < len (strip (get_text e)) ->
         chunks (step file_stem base_url st e)
         = chunks st ++ [make_chunk file_stem base_url st (strip (get_text e))])
        /\ (len (strip (get_text e)) <= 50 ->
            step file_stem base_url st e = st))
    /\ (forall elements : list element,
           map content (chunk_elements file_stem base_url elements)
           = map (fun e => strip (get_text e)) (List.filter Spec.retained elements))
    /\ (forall (kind : elem_name) (text : string),
           is_content kind = true -> len text <= 50 ->
           chunk_elements file_stem base_url [mkElement kind text] = [])
    /\ (forall (kind : elem_name) (text : string),
           is_content kind = true -> len (strip text) = 51 ->
           exists c, chunk_elements file_stem base_url [mkElement kind text] = [c]
                     /\ content c = strip text).
Proof.
  intros order file_stem base_url.
  assert (Hstep : forall (st : state) (e : element),
             is_content (name e) = true ->
             len (strip (get_text e)) <= 50 -> step file_stem base_url st e = st).
  { intros st e Hc Hle. unfold step.
    rewrite (content_not_heading _ Hc), Hc.
    destruct (Nat.ltb_spec 50 (len (strip (get_text e)))); [lia|reflexivity]. }
  split; [|split; [|split]].
  - intros st e Hc. split; [|now apply Hstep].
    intros Hlt. rewrite step_retained; [reflexivity|].
    unfold Spec.retained. rewrite Hc. simpl. apply Nat.ltb_lt. exact Hlt.
  - intros elements. unfold chunk_elements. now rewrite run_contents.
  - intros kind text Hc Hle. unfold chunk_elements. simpl.
    rewrite Hstep; [reflexivity|exact Hc|].
    simpl. pose proof (PyStrFacts.strip_len text). lia.
  - intros kind text Hc Hlen. unfold chunk_elements. simpl.
    rewrite step_retained.
    + simpl. eexists. split; reflexivity.
    + unfold Spec.retained. simpl. rewrite Hc, Hlen. reflexivity.
Qed.

Lemma C1_witness :
  chunk_elements "index" "https://fastapi.tiangolo.com/index"
    [mkElement p Sample.text50] = []
  /\ (exists c, chunk_elements "index" "https://fastapi.tiangolo.com/index"
                  [mkElement ol Sample.text51] = [c]
                /\ content c = strip Sample.text51)
  /\ step "index" "https://fastapi.tiangolo.com/index" init (mkElement pre Sample.text50)
     = init
  /\ length (chunks (step "index" "https://fastapi.tiangolo.com/index" init
                       (mkElement ul Sample.text51))) = 1.
Proof.
  destruct (C1_chunk_iff_trimmed_text_exceeds_50 canonical_order
              "index" "https://fastapi.tiangolo.com/index") as (Hstep & _ & H50 & H51).
  split; [|split; [|split]].
  - apply H50; [reflexivity|]. apply Nat.leb_le. reflexivity.
  - apply H51; reflexivity.
  - apply (Hstep init (mkElement pre Sample.text50)); [reflexivity|].
    apply Nat.leb_le. reflexivity.
  - destruct (Hstep init (mkElement ul Sample.text51) eq_refl) as [Hemit _].
    rewrite Hemit; [reflexivity|]. apply Nat.ltb_lt. reflexivity.
Defined.

(** C2. The heading tracking of the chunker: a heading of level 1 or 2
    sets the current section to its trimmed text and empties the current
    subsection; a heading of level 3 or 4 sets the current subsection
    only; a heading of level 5 or 6 changes nothing; a content block
    changes neither variable, and the chunk it emits carries the two
    values as they stand.  Hence, in any block sequence, the chunk of a
    retained block has as section the trimmed text of the nearest
    level 1-2 heading before it and as subsection that of the nearest
    level 3-4 heading after that heading (empty when there is none).
    For [H1 "Intro"; P a; H3 "Details"; P b] with [a], [b] longer than 50
    characters the two chunks carry ("Intro", "") and
    ("Intro", "Details"). *)
Theorem C2_heading_state_machine :
  forall (order : PySetOrder) (file_stem base_url : string),
    (forall (st : state) (text : string),
        step file_stem base_url st (mkElement h1 text)
        = mkState (chunks st) (strip text) ""
        /\ step file_stem base_url st (mkElement h2 text)
           = mkState (chunks st) (strip text) ""
        /\ step file_stem base_url st (mkElement h3 text)
           = mkState (chunks st) (current_section st) (strip text)
        /\ step file_stem base_url st (mkElement h4 text)
           = mkState (chunks st) (current_section st) (strip text)
        /\ step file_stem base_url st (mkElement h5 text) = st
        /\ step file_stem base_url st (mkElement h6 text) = st)
    /\ (forall (st : state) (e : element),
           is_content (name e) = true ->
           current_section (step file_stem base_url st e) = current_section st
           /\ current_subsection (step file_stem base_url st e) = current_subsection st
           /\ forall c, In c (chunks (step file_stem base_url st e)) ->
                        In c (chunks st)
                        \/ (section c = current_section st
                            /\ subsection c = current_subsection st))
    /\ (forall (before after : list element) (e : element),
           Spec.retained e = true ->
           exists c,
             chunk_elements file_stem base_url (before ++ e :: after)
               !! length (chunk_elements file_stem base_url before) = Some c
             /\ content c = strip (get_text e)
             /\ section c = Spec.section_seen (rev before)
             /\ subsection c = Spec.subsection_seen (rev before))
    /\ map (fun c => (section c, subsection c))
          (chunk_elements file_stem base_url Sample.intro_details)
       = [("Intro", ""); ("Intro", "Details")].
Proof.
  intros order file_stem base_url. split; [|split; [|split]].
  - intros [cs sec sub] text. repeat split.
  - intros st e Hc.
    rewrite step_section, step_subsection.
    split; [destruct (name e); simpl in Hc; congruence|].
    split; [destruct (name e); simpl in Hc; congruence|].
    intros c Hin.
    destruct (Spec.retained e) eqn:Hr.
    + rewrite (step_retained _ _ _ _ Hr) in Hin. simpl in Hin.
      apply in_app_or in Hin. destruct Hin as [Hin|[<-|[]]]; [now left|].
      right. split; reflexivity.
    + rewrite (step_dropped _ _ _ _ Hr) in Hin. now left.
  - intros before after e Hr.
    eexists. split; [apply run_emits; exact Hr|].
    destruct (run_tracks file_stem base_url before) as [Hs Hu].
    simpl. rewrite Hs, Hu. repeat split.
  - reflexivity.
Qed.

Lemma C2_witness :
  (exists c,
      chunk_elements "index" "https://fastapi.tiangolo.com/index" Sample.intro_details
        !! 1 = Some c
      /\ content c = Sample.paragraph_b
      /\ section c = "Intro"
      /\ subsection c = "Details")
  /\ current_section
       (step "index" "https://fastapi.tiangolo.com/index"
          (mkState [] "Intro" "Details") (mkElement p Sample.paragraph_a))
     = "Intro".
Proof.
  destruct (C2_heading_state_machine canonical_order
              "index" "https://fastapi.tiangolo.com/index") as (_ & Hcontent & Hemit & _).
  split.
  - exact (Hemit [mkElement h1 "Intro"; mkElement p Sample.paragraph_a;
                  mkElement h3 "Details"] [] (mkElement p Sample.paragraph_b) eq_refl).
  - exact (proj1 (Hcontent (mkState [] "Intro" "Details")
                    (mkElement p Sample.paragraph_a) eq_refl)).
Defined.

End ProcessorFacts.

(** ** The collector *)

Module FetcherFacts.
Import PyStr Interfaces Fetcher.

(** The stem of a path is that of its last component. *)
Lemma stem_last (front : PyPath.path) (file : string) :
  PyPath.stem (front ++ [file]) = PyPath.stem [file].
Proof.
  unfold PyPath.stem, PyPath.name. rewrite last_last. reflexivity.
Qed.

Lemma stem_full_path (repo_path : string) (f : md_file) :
  PyPath.stem (full_path repo_path f) = PyPath.stem [file_name f].
Proof.
  unfold full_path, rel_path. rewrite app_assoc. apply stem_last.
Qed.

Section Collector.
Context `{PySetOrder}.
Variable repo_path : string.
Variable base_docs_url : string.

Local Abbreviation visit := (visit repo_path base_docs_url).
Local Abbreviation file_chunks := (file_chunks repo_path base_docs_url).
Local Abbreviation full_path := (full_path repo_path).

Lemma visit_docs (a : acc) (f : md_file) :
  fst (visit a f) = fst a ++ file_chunks f.
Proof.
  unfold Fetcher.visit, Fetcher.file_chunks.
  destruct (process repo_path base_docs_url f) as [[|c cs]|e]; simpl;
    now rewrite ?app_nil_r.
Qed.

Lemma walk_docs (files : list md_file) (a : acc) :
  fst (fold_left visit files a) = fst a ++ concat (map file_chunks files).
Proof.
  revert a. induction files as [|f fs IH]; intros a; simpl.
  - now rewrite app_nil_r.
  - rewrite IH, visit_docs. now rewrite <- app_assoc.
Qed.

(** The log only grows, and a file that raises adds its line. *)
Lemma visit_log (a : acc) (f : md_file) :
  exists more, snd (visit a f) = snd a ++ more.
Proof.
  unfold Fetcher.visit.
  destruct (process repo_path base_docs_url f) as [[|c cs]|e]; simpl.
  - exists []. now rewrite app_nil_r.
  - exists []. now rewrite app_nil_r.
  - eauto.
Qed.

Lemma walk_log (files : list md_file) (a : acc) :
  exists more, snd (fold_left visit files a) = snd a ++ more.
Proof.
  revert a. induction files as [|f fs IH]; intros a; simpl.
  - exists []. now rewrite app_nil_r.
  - destruct (IH (visit a f)) as [m1 ->]. destruct (visit_log a f) as [m2 ->].
    rewrite <- app_assoc. eauto.
Qed.

End Collector.

(** C5. A file whose processing raises is skipped and the walk goes on:
    the collector returns the concatenation, in enumeration order, of
    what each file contributes, where a file that raises contributes
    nothing and a readable file contributes its chunk sequence.  So for
    a tree with one corrupt file among readable ones the result is the
    concatenation of the readable files' chunks, the same as for the
    tree without the corrupt file, and the failure is logged. *)
Theorem C5_corrupt_file_is_skipped :
  forall (order : PySetOrder) (repo_path base_docs_url : string),
    (forall files : list md_file,
        fst (extract_documents repo_path base_docs_url (Some files))
        = concat (map (file_chunks repo_path base_docs_url) files))
    /\ (forall (dirs : list string) (file : string) (elements : list Processor.element),
           file_chunks repo_path base_docs_url (mkFile dirs file (Ret elements))
           = Processor.chunk_elements (PyPath.stem [file])
               (base_docs_url +:+ "/"
                +:+ PyPath.str (PyPath.with_suffix_empty (dirs ++ [file])))
               elements)
    /\ (forall (before after : list md_file) (dirs : list string) (file msg : string),
           let corrupt := mkFile dirs file (Raise msg) in
           fst (extract_documents repo_path base_docs_url
                  (Some (before ++ corrupt :: after)))
           = concat (map (file_chunks repo_path base_docs_url) (before ++ after))
           /\ fst (extract_documents repo_path base_docs_url
                     (Some (before ++ corrupt :: after)))
              = fst (extract_documents repo_path base_docs_url (Some (before ++ after)))
           /\ In ("Error processing "
                  +:+ shown repo_path corrupt +:+ ": " +:+ msg)
                (snd (extract_documents repo_path base_docs_url
                        (Some (before ++ corrupt :: after))))).
Proof.
  intros order repo_path base_docs_url.
  assert (Hall : forall files : list md_file,
             fst (extract_documents repo_path base_docs_url (Some files))
             = concat (map (file_chunks repo_path base_docs_url) files)).
  { intros files. simpl. now rewrite walk_docs. }
  split; [exact Hall|]. split.
  - intros dirs file elements.
    unfold file_chunks, process, Processor.process_markdown_file. simpl.
    f_equal. apply stem_full_path.
  - intros before after dirs file msg corrupt.
    assert (Hskip : concat (map (file_chunks repo_path base_docs_url)
                              (before ++ corrupt :: after))
                    = concat (map (file_chunks repo_path base_docs_url)
                                (before ++ after))).
    { rewrite !map_app, !concat_app. reflexivity. }
    split; [|split].
    + now rewrite Hall.
    + now rewrite !Hall.
    + simpl. apply in_or_app. left.
      rewrite fold_left_app. simpl.
      destruct (walk_log repo_path base_docs_url after
                  (visit repo_path base_docs_url
                     (fold_left (visit repo_path base_docs_url) before ([], []))
                     corrupt)) as [more ->].
      apply in_or_app. left. unfold visit at 1. simpl.
      apply in_or_app. right. now left.
Qed.

(** C3 (evaluated where it fails). The fetcher names a chunk after the
    stem of its file alone: for a tree with [tutorial/index.md] and
    [advanced/index.md], one retained paragraph each, one run emits the
    id ["index#0"] twice, while the pipeline inside the server entry
    point, which names a chunk after the relative path, emits two
    different ids for the same tree. *)
Theorem C3_ids_collide_across_directories :
  map id (fst (extract_documents "/tmp/fastapi_repo" "https://fastapi.tiangolo.com"
                 (Some Sample.two_indexes)))
  = ["index#0"; "index#0"]
  /\ ~ NoDup (map id (fst (extract_documents "/tmp/fastapi_repo"
                             "https://fastapi.tiangolo.com" (Some Sample.two_indexes))))
  /\ map id (Monolith.extract_docs_from_repo (Some Sample.two_indexes))
     = ["tutorial/index.md#0"; "advanced/index.md#0"].
Proof.
  assert (Hids : map id (fst (extract_documents "/tmp/fastapi_repo"
                                "https://fastapi.tiangolo.com" (Some Sample.two_indexes)))
                 = ["index#0"; "index#0"]) by (vm_compute; reflexivity).
  split; [exact Hids|]. split; [|vm_compute; reflexivity].
  rewrite Hids. intros Hnd. inversion Hnd as [|x l Hnotin _]; subst.
  apply Hnotin. now left.
Qed.

End FetcherFacts.

(** ** The tag extractor *)

Module TagFacts.
Import PyStr Re Processor.

(** [list(set(l))] lists the members of [l], each once. *)
Lemma listed_iff `{PySetOrder} (l : list string) (tag : string) :
  In tag (set_to_list (list_to_set l)) <-> In tag l.
Proof.
  rewrite <- !list_elem_of_In.
  rewrite (set_to_list_perm (list_to_set l)).
  rewrite elem_of_elements. apply elem_of_list_to_set.
Qed.

Lemma listed_NoDup `{PySetOrder} (s : gset string) : NoDup (set_to_list s).
Proof.
  rewrite set_to_list_perm. apply NoDup_elements.
Qed.

Lemma keep_lower_char (c : ascii) : keep_char (lower_char c) = keep_char c.
Proof. destruct c as [[] [] [] [] [] [] [] []]; reflexivity. Qed.

(** Lower-casing and the clean-up commute. *)
Lemma sub_outside_lower (s : string) :
  sub_outside keep_char (lower s) = lower (sub_outside keep_char s).
Proof.
  induction s as [|c s IH]; simpl; [reflexivity|].
  rewrite keep_lower_char. destruct (keep_char c); simpl; now rewrite IH.
Qed.

Lemma replace_char_len (a b : ascii) (s : string) :
  len (replace_char a b s) = len s.
Proof. unfold len. induction s; simpl; congruence. Qed.

Lemma replace_char_get (a b : ascii) (s : string) (i : nat) :
  String.get i (replace_char a b s)
  = option_map (fun c => if Ascii.eqb c a then b else c) (String.get i s).
Proof.
  revert i. induction s as [|c s IH]; intros i; simpl; [reflexivity|].
  destruct i; simpl; [reflexivity|apply IH].
Qed.

Lemma space_isspace (c : ascii) : Ascii.eqb c " " = true -> isspace c = true.
Proof. intros ->%Ascii.eqb_eq. reflexivity. Qed.

(** On text whose whitespace is single spaces, one hyphen per space
    is one hyphen per run. *)
Lemma hyphenate_single_spaced (s : string) (b : bool) :
  Spec.single_spaced b s = true ->
  Spec.hyphenate_runs b s = replace_char " " "-" s.
Proof.
  revert b. induction s as [|c s IH]; intros b; simpl; [reflexivity|].
  destruct (Ascii.eqb c " ") eqn:Hc.
  - rewrite (space_isspace _ Hc). intros [Hb Hs]%andb_prop.
    destruct b; [discriminate|]. now rewrite (IH _ Hs).
  - intros [Hw Hs]%andb_prop. apply negb_true_iff in Hw. rewrite Hw.
    now rewrite (IH _ Hs).
Qed.

(** The tags returned: those of the patterns, and the section tag
    when it is not empty. *)
Lemma extract_tags_iff `{PySetOrder} (content section tag : string) :
  In tag (extract_tags content section)
  <-> In tag (pattern_tags (lower content))
      \/ (section_tag (lower section) <> ""
          /\ tag = section_tag (lower section)).
Proof.
  unfold extract_tags. rewrite listed_iff.
  unfold collected_tags.
  destruct (nonempty (lower section)) eqn:Hs.
  - destruct (nonempty (section_tag (lower section))) eqn:Ht.
    + rewrite in_app_iff. simpl. split.
      * intros [Hin|[<-|[]]]; [now left|]. right. split; [|reflexivity].
        intros Heq. rewrite Heq in Ht. discriminate.
      * intros [Hin|[_ ->]]; [now left|]. right. now left.
    + apply PyStrFacts.nonempty_false in Ht. split; [now left|].
      intros [Hin|[Hne _]]; [exact Hin|]. now destruct Hne.
  - apply PyStrFacts.nonempty_false in Hs. rewrite Hs. simpl. split; [now left|].
    intros [Hin|[Hne _]]; [exact Hin|]. now destruct Hne.
Qed.

(** C4 (as the code has it). The section tag is the lower-cased section
    with the characters outside word characters, whitespace and hyphen
    removed and every space character replaced by a hyphen, one hyphen
    for each space: the tag is as long as the cleaned section and
    differs from it only where that has a space, so a run of spaces
    gives as many hyphens and other whitespace stays.  It is among the
    tags exactly when it is not empty.  Where the whitespace of the
    cleaned section is single spaces only, this is the tag of the
    specification's wording.  "API Endpoints" gives "api-endpoints" and
    "Getting Started!" gives "getting-started". *)
Theorem C4_section_tag_hyphen_per_space :
  forall (order : PySetOrder) (content section : string),
    let cleaned := sub_outside keep_char (lower section) in
    (forall tag : string,
        In tag (extract_tags content section)
        <-> In tag (pattern_tags (lower content))
            \/ (section_tag (lower section) <> ""
                /\ tag = section_tag (lower section)))
    /\ len (section_tag (lower section)) = len cleaned
    /\ (forall i : nat,
           String.get i (section_tag (lower section))
           = option_map (fun c => if Ascii.eqb c " " then "-"%char else c)
               (String.get i cleaned))
    /\ (Spec.single_spaced false cleaned = true ->
        section_tag (lower section) = Spec.section_tag section)
    /\ section_tag (lower "API Endpoints") = "api-endpoints"
    /\ section_tag (lower "Getting Started!") = "getting-started".
Proof.
  intros order content section cleaned.
  split; [|split; [|split; [|split; [|split]]]].
  - intros tag. apply extract_tags_iff.
  - apply replace_char_len.
  - intros i. apply replace_char_get.
  - intros Hsingle. unfold section_tag, Spec.section_tag.
    rewrite <- sub_outside_lower. symmetry. now apply hyphenate_single_spaced.
  - reflexivity.
  - reflexivity.
Qed.

Lemma C4_witness :
  section_tag (lower "API Endpoints") = Spec.section_tag "API Endpoints".
Proof.
  destruct (C4_section_tag_hyphen_per_space canonical_order "" "API Endpoints")
    as (_ & _ & _ & Hspec & _).
  apply Hspec. reflexivity.
Defined.

(** C4 as stated fails: the section "Request & Response" loses its
    ampersand, which leaves two spaces in a row; the specification's
    wording makes one hyphen of them, the code two. *)
Lemma C4_counterexample :
  Spec.section_tag "Request & Response" = "request-response"
  /\ extract_tags "" "Request & Response" = ["request--response"]
  /\ ~ In (Spec.section_tag "Request & Response")
         (extract_tags "" "Request & Response").
Proof.
  split; [reflexivity|]. split; [vm_compute; reflexivity|].
  vm_compute. intros [Heq|[]]. discriminate Heq.
Qed.

(** C8. Tag extraction gives the same set of tags whenever it is called
    on the same content and section: whatever order the interpreter
    lists a set in at the first call and at the second, the two results
    are permutations of each other.  A result holds no tag twice, its
    members are those collected from the patterns and the section, and
    for empty content and empty section it is empty.  With content
    "pydantic basemodel router" and section "API" both patterns of
    [pydantic] match and the section tag repeats the pattern tag [api]:
    three tags are collected, two are returned. *)
Theorem C8_extract_tags_is_a_set :
  forall (first second : PySetOrder) (content section : string),
    @extract_tags first content section ≡ₚ @extract_tags second content section
    /\ NoDup (@extract_tags first content section)
    /\ (forall tag : string,
           In tag (@extract_tags first content section)
           <-> In tag (collected_tags content section))
    /\ @extract_tags first "" "" = []
    /\ collected_tags "pydantic basemodel router" "API" = ["api"; "pydantic"; "api"]
    /\ @extract_tags first "pydantic basemodel router" "API"
       ≡ₚ ["api"; "pydantic"].
Proof.
  intros first second content section.
  split; [|split; [|split; [|split; [|split]]]].
  - unfold extract_tags.
    rewrite (@set_to_list_perm first), (@set_to_list_perm second). reflexivity.
  - apply listed_NoDup.
  - intros tag. apply listed_iff.
  - unfold extract_tags. apply Permutation_nil.
    rewrite (@set_to_list_perm first). vm_compute. reflexivity.
  - vm_compute. reflexivity.
  - unfold extract_tags. rewrite (@set_to_list_perm first).
    vm_compute. reflexivity.
Qed.

End TagFacts.

(** ** The query tools *)

Module ServerFacts.
Import Interfaces Server.

(** A tool call always returns: both branches of its [try] do. *)
Lemma get_returns {C} (engine : ISearchEngine C) (doc_id : string) (c : C) :
  exists r c', get_fastapi_doc_by_id engine doc_id c = (Ret r, c').
Proof.
  unfold get_fastapi_doc_by_id, try_M, mbind, M_bind.
  destruct (get_document_by_id engine doc_id c) as [[[d|]|e] c']; simpl; eauto.
Qed.

Lemma search_returns {C} (engine : ISearchEngine C) (query : string)
    (tags : option (list string)) (max_results : Z) (c : C) :
  exists r c', search_fastapi_docs engine query tags max_results c = (Ret r, c').
Proof.
  unfold search_fastapi_docs, try_M, mbind, M_bind.
  destruct (search_documents engine query tags max_results c) as [[hits|e] c'];
    simpl; eauto.
Qed.

(** An engine whose own method raises is reported as a failed lookup;
    [ElasticsearchEngine] is never such an engine. *)
Lemma get_from_raising_engine {C} (engine : ISearchEngine C) (doc_id msg : string)
    (c c' : C) :
  get_document_by_id engine doc_id c = (Raise msg, c') ->
  get_fastapi_doc_by_id engine doc_id c
  = (Ret (Error ("Failed to get document: " +:+ msg)), c').
Proof.
  intros Hget. unfold get_fastapi_doc_by_id, try_M, mbind, M_bind.
  now rewrite Hget.
Qed.

Lemma engine_get_never_raises {C} (es : Engine.es_client C) (index_name doc_id : string)
    (c : C) :
  exists found c', Engine.get_document_by_id es index_name doc_id c = (Ret found, c').
Proof.
  unfold Engine.get_document_by_id, try_M, mbind, M_bind.
  destruct (Engine.es_get es index_name doc_id c) as [[s|e] c']; simpl; eauto.
Qed.

(** C6 (as the code has it). The lookup tool, layer by layer.  When
    the engine reports the document absent, by returning [None], the
    tool answers "Document with ID '<id>' not found".  When the engine's
    [get_document_by_id] raises, the tool answers "Failed to get
    document: <message>", which is never the not-found answer.  The
    Elasticsearch gateway does not raise: when the client's lookup
    raises, whether for an absent document or for any other failure, it
    returns [None], and so the tool over that gateway answers "not
    found".  In every case the tool returns a value, so no exception
    reaches the caller. *)
Theorem C6_lookup_failure_by_layer :
  forall (C : Type) (doc_id : string) (c : C),
    let not_found := Error ("Document with ID '" +:+ doc_id +:+ "' not found") in
    (forall (engine : ISearchEngine C) (c' : C),
        get_document_by_id engine doc_id c = (Ret None, c') ->
        get_fastapi_doc_by_id engine doc_id c = (Ret not_found, c'))
    /\ (forall (engine : ISearchEngine C) (msg : string) (c' : C),
           get_document_by_id engine doc_id c = (Raise msg, c') ->
           get_fastapi_doc_by_id engine doc_id c
           = (Ret (Error ("Failed to get document: " +:+ msg)), c')
           /\ Error ("Failed to get document: " +:+ msg) <> not_found)
    /\ (forall (es : Engine.es_client C) (index_name msg : string) (c' : C),
           Engine.es_get es index_name doc_id c = (Raise msg, c') ->
           Engine.get_document_by_id es index_name doc_id c = (Ret None, c')
           /\ get_fastapi_doc_by_id (Engine.ElasticsearchEngine es index_name) doc_id c
              = (Ret not_found, c'))
    /\ (forall engine : ISearchEngine C,
           exists r c', get_fastapi_doc_by_id engine doc_id c = (Ret r, c')).
Proof.
  intros C doc_id c not_found. split; [|split; [|split]].
  - intros engine c' Hnone.
    unfold get_fastapi_doc_by_id, try_M, mbind, M_bind. now rewrite Hnone.
  - intros engine msg c' Hraise. split.
    + now apply get_from_raising_engine.
    + subst not_found. discriminate.
  - intros es index_name msg c' Hget.
    assert (Hnone : Engine.get_document_by_id es index_name doc_id c = (Ret None, c')).
    { unfold Engine.get_document_by_id, try_M, mbind, M_bind. now rewrite Hget. }
    split; [exact Hnone|].
    unfold get_fastapi_doc_by_id, try_M, mbind, M_bind. simpl. now rewrite Hnone.
  - intros engine. apply get_returns.
Qed.

Lemma C6_witness :
  get_fastapi_doc_by_id (Engine.ElasticsearchEngine Mock.memory_client "fastapi_docs")
    "missing#7" Sample.loaded_cluster
  = (Ret (Error "Document with ID 'missing#7' not found"), Sample.loaded_cluster)
  /\ get_fastapi_doc_by_id (Mock.raising_engine "Lookup error") "index#0" tt
     = (Ret (Error "Failed to get document: Lookup error"), tt)
  /\ get_fastapi_doc_by_id (Engine.ElasticsearchEngine Mock.down_client "fastapi_docs")
       "index#0" tt
     = (Ret (Error "Document with ID 'index#0' not found"), tt).
Proof.
  split; [|split].
  - destruct (C6_lookup_failure_by_layer Mock.cluster "missing#7"
                Sample.loaded_cluster) as (Hnone & _ & _ & _).
    apply (Hnone (Engine.ElasticsearchEngine Mock.memory_client "fastapi_docs")).
    reflexivity.
  - destruct (C6_lookup_failure_by_layer unit "index#0" tt) as (_ & Hraise & _ & _).
    exact (proj1 (Hraise (Mock.raising_engine "Lookup error") "Lookup error" tt eq_refl)).
  - destruct (C6_lookup_failure_by_layer unit "index#0" tt) as (_ & _ & Hes & _).
    exact (proj2 (Hes Mock.down_client "fastapi_docs" Mock.unreachable tt eq_refl)).
Defined.

(** C6 as stated fails: an engine whose lookup raises "Lookup error" is
    answered with "Failed to get document: Lookup error", not with the
    not-found message. *)
Lemma C6_counterexample :
  get_document_by_id (Mock.raising_engine "Lookup error") "index#0" tt
  = (Raise "Lookup error", tt)
  /\ get_fastapi_doc_by_id (Mock.raising_engine "Lookup error") "index#0" tt
     = (Ret (Error "Failed to get document: Lookup error"), tt)
  /\ get_fastapi_doc_by_id (Mock.raising_engine "Lookup error") "index#0" tt
     <> (Ret (Error "Document with ID 'index#0' not found"), tt).
Proof.
  split; [reflexivity|]. split; [reflexivity|]. discriminate.
Qed.

(** C7 (as the code has it). When the engine's [search_documents]
    raises, the search tool answers "Search failed: <message>" and
    nothing propagates.  The Elasticsearch gateway does not raise: when
    the client's search call fails it returns no hits, and the tool
    then answers with an ordinary result of zero hits. *)
Theorem C7_search_failure_by_layer :
  forall (C : Type) (query : string) (tags : option (list string))
         (max_results : Z) (c : C),
    (forall (engine : ISearchEngine C) (msg : string) (c' : C),
        search_documents engine query tags max_results c = (Raise msg, c') ->
        search_fastapi_docs engine query tags max_results c
        = (Ret (Error ("Search failed: " +:+ msg)), c'))
    /\ (forall (es : Engine.es_client C) (index_name msg : string) (c' : C),
           Engine.es_search es index_name
             (Engine.mkBody query (Engine.tags_filter tags) max_results) c
           = (Raise msg, c') ->
           Engine.search_documents es index_name query tags max_results c = (Ret [], c')
           /\ search_fastapi_docs (Engine.ElasticsearchEngine es index_name)
                query tags max_results c
              = (Ret (Results query 0 []), c'))
    /\ (forall engine : ISearchEngine C,
           exists r c', search_fastapi_docs engine query tags max_results c = (Ret r, c')).
Proof.
  intros C query tags max_results c. split; [|split].
  - intros engine msg c' Hraise.
    unfold search_fastapi_docs, try_M, mbind, M_bind. now rewrite Hraise.
  - intros es index_name msg c' Hraise.
    assert (Hempty : Engine.search_documents es index_name query tags max_results c
                     = (Ret [], c')).
    { unfold Engine.search_documents, try_M. now rewrite Hraise. }
    split; [exact Hempty|].
    unfold search_fastapi_docs, try_M, mbind, M_bind. simpl. now rewrite Hempty.
  - intros engine. apply search_returns.
Qed.

Lemma C7_witness :
  search_fastapi_docs (Mock.raising_engine "Search error") "test query" None 10 tt
  = (Ret (Error "Search failed: Search error"), tt)
  /\ search_fastapi_docs (Engine.ElasticsearchEngine Mock.down_client "fastapi_docs")
       "async" (Some ["api"]) 10 tt
     = (Ret (Results "async" 0 []), tt).
Proof.
  split.
  - destruct (C7_search_failure_by_layer unit "test query" None 10 tt) as (Hraise & _ & _).
    exact (Hraise (Mock.raising_engine "Search error") "Search error" tt eq_refl).
  - destruct (C7_search_failure_by_layer unit "async" (Some ["api"]) 10 tt)
      as (_ & Hes & _).
    exact (proj2 (Hes Mock.down_client "fastapi_docs" Mock.unreachable tt eq_refl)).
Defined.

(** C7 as stated fails: with the cluster unreachable the gateway's
    search call fails with "Connection refused", and the tool answers
    with an ordinary empty result, not with "Search failed: ...". *)
Lemma C7_counterexample :
  Engine.es_search Mock.down_client "fastapi_docs" (Engine.mkBody "async" None 10) tt
  = (Raise "Connection refused", tt)
  /\ search_fastapi_docs (Engine.ElasticsearchEngine Mock.down_client "fastapi_docs")
       "async" None 10 tt
     = (Ret (Results "async" 0 []), tt)
  /\ search_fastapi_docs (Engine.ElasticsearchEngine Mock.down_client "fastapi_docs")
       "async" None 10 tt
     <> (Ret (Error "Search failed: Connection refused"), tt).
Proof.
  split; [reflexivity|]. split; [reflexivity|]. discriminate.
Qed.

End ServerFacts.

(** ** The loader *)

Module LoaderFacts.
Import Interfaces Server Loader.

(** [create_index] does drop what an existing index holds. *)
Lemma create_index_is_destructive :
  Engine.create_index Mock.memory_client "fastapi_docs" Sample.loaded_cluster
  = (Ret tt, {[ "fastapi_docs" := ∅ ]}).
Proof. vm_compute. reflexivity. Qed.

(** C10. When the repository is synchronised and the collection step
    returns no document, [load_data] answers
    "No documents found in repository" and leaves the world as the
    fetcher left it: neither [create_index] nor [index_documents] of
    the engine is called (an engine that records its calls has recorded
    none), so an existing index keeps its content. *)
Theorem C10_empty_collection_leaves_index :
  forall (C : Type) (fetcher : IDocumentFetcher C) (search_engine : ISearchEngine C)
         (c c1 c2 : C),
    clone_or_update_repo fetcher c = (Ret tt, c1) ->
    extract_documents fetcher c1 = (Ret [], c2) ->
    load_data fetcher search_engine c
    = (Ret (Error "No documents found in repository"), c2)
    /\ load_data (Mock.beside fetcher) (Mock.recording search_engine) (c, [])
       = (Ret (Error "No documents found in repository"), (c2, [])).
Proof.
  intros C fetcher search_engine c c1 c2 Hclone Hextract. split.
  - unfold load_data, try_M, mbind, M_bind. rewrite Hclone, Hextract. reflexivity.
  - unfold load_data, try_M, mbind, M_bind. simpl.
    unfold Mock.unrecorded. simpl. rewrite Hclone. simpl. rewrite Hextract. reflexivity.
Qed.

Lemma C10_witness :
  load_data Mock.empty_fetcher
    (Engine.ElasticsearchEngine Mock.memory_client "fastapi_docs") Sample.loaded_cluster
  = (Ret (Error "No documents found in repository"), Sample.loaded_cluster)
  /\ load_data (Mock.beside Mock.empty_fetcher)
       (Mock.recording (Engine.ElasticsearchEngine Mock.memory_client "fastapi_docs"))
       (Sample.loaded_cluster, [])
     = (Ret (Error "No documents found in repository"), (Sample.loaded_cluster, [])).
Proof.
  exact (C10_empty_collection_leaves_index Mock.cluster Mock.empty_fetcher
           (Engine.ElasticsearchEngine Mock.memory_client "fastapi_docs")
           Sample.loaded_cluster Sample.loaded_cluster Sample.loaded_cluster
           eq_refl eq_refl).
Defined.

End LoaderFacts.

(** ** The two pipelines side by side *)

Module PipelineFacts.
Import PyStr Re Interfaces.

(** *** Chunking *)

Section OneFile.
Context `{PySetOrder}.
Variable repo_path : string.
Variable f : Fetcher.md_file.

Local Abbreviation file_stem := (PyPath.stem (Fetcher.full_path repo_path f)).
Local Abbreviation url := (Fetcher.base_url Monolith.FASTAPI_DOCS_URL f).
Local Abbreviation rel := (Fetcher.rel_path f).

Lemma stem_rel_path : PyPath.stem rel = file_stem.
Proof.
  rewrite FetcherFacts.stem_full_path. unfold Fetcher.rel_path.
  apply FetcherFacts.stem_last.
Qed.

Lemma make_chunk_alike (a b : Processor.state) (text : string) :
  Compare.alike a b ->
  Compare.body (Processor.make_chunk file_stem url a text)
  = Compare.body (Monolith.make_chunk rel b text).
Proof.
  intros (_ & Hs & Hu). unfold Compare.body. simpl.
  rewrite Hs, Hu, stem_rel_path. reflexivity.
Qed.

Lemma step_alike (a b : Processor.state) (e : Processor.element) :
  Compare.alike a b ->
  Compare.alike (Processor.step file_stem url a e) (Monolith.step rel b e).
Proof.
  intros Hab. pose proof Hab as (Hc & Hs & Hu).
  unfold Processor.step, Monolith.step.
  destruct (Processor.startswith_h (Processor.name e)).
  - destruct (Nat.leb (Processor.level (Processor.name e)) 2);
      [repeat split; assumption|].
    destruct (Nat.leb (Processor.level (Processor.name e)) 4);
      repeat split; assumption.
  - destruct (Processor.is_content (Processor.name e)); [|exact Hab].
    destruct (Nat.ltb 50 (len (strip (Processor.get_text e)))); [|exact Hab].
    repeat split; simpl; try assumption.
    rewrite !map_app, Hc. simpl. now rewrite (make_chunk_alike a b _ Hab).
Qed.

Lemma run_alike (elements : list Processor.element) (a b : Processor.state) :
  Compare.alike a b ->
  Compare.alike (Processor.run file_stem url a elements)
        (fold_left (Monolith.step rel) elements b).
Proof.
  revert a b. induction elements as [|e es IH]; intros a b Hab; [exact Hab|].
  simpl. apply IH. now apply step_alike.
Qed.

Lemma file_alike :
  map Compare.body (Fetcher.file_chunks repo_path Monolith.FASTAPI_DOCS_URL f)
  = map Compare.body (Compare.monolith_chunks f).
Proof.
  unfold Fetcher.file_chunks, Compare.monolith_chunks, Fetcher.process,
    Processor.process_markdown_file, Monolith._process_markdown_file.
  destruct (Fetcher.rendered f) as [elements|e]; simpl; [|reflexivity].
  apply (run_alike elements Processor.init Processor.init).
  repeat split.
Qed.

End OneFile.

Lemma monolith_walk `{PySetOrder} (files : list Fetcher.md_file)
    (docs : list DocumentChunk) :
  fold_left
    (fun docs f =>
       match Monolith._process_markdown_file (Fetcher.rel_path f) (Fetcher.rendered f) with
       | Ret content => match content with [] => docs | _ :: _ => docs ++ content end
       | Raise _ => docs
       end)
    files docs
  = docs ++ concat (map Compare.monolith_chunks files).
Proof.
  revert docs. induction files as [|f fs IH]; intros docs; simpl.
  - now rewrite app_nil_r.
  - rewrite IH. unfold Compare.monolith_chunks at 2.
    destruct (Monolith._process_markdown_file (Fetcher.rel_path f) (Fetcher.rendered f))
      as [[|c cs]|e]; simpl; now rewrite ?app_nil_r, <- ?app_assoc.
Qed.

Lemma trees_alike `{PySetOrder} (repo_path : string)
    (tree : option (list Fetcher.md_file)) :
  map Compare.body
    (fst (Fetcher.extract_documents repo_path Monolith.FASTAPI_DOCS_URL tree))
  = map Compare.body (Monolith.extract_docs_from_repo tree).
Proof.
  destruct tree as [files|]; [|reflexivity].
  unfold Monolith.extract_docs_from_repo. rewrite monolith_walk. simpl.
  rewrite FetcherFacts.walk_docs. simpl.
  induction files as [|f fs IH]; [reflexivity|].
  simpl. rewrite !map_app, IH. now rewrite file_alike.
Qed.

(** *** Tagging *)

Lemma str_match_prefix (w : string) (prev : option ascii) (s : string) (k : cont) :
  str_match w prev s k = true -> String.prefix w s = true.
Proof.
  revert prev s. induction w as [|a w IH]; intros prev s; [now destruct s|].
  destruct s as [|b s]; simpl; [discriminate|].
  destruct (Ascii.eqb a b) eqn:Hab; [|discriminate].
  apply Ascii.eqb_eq in Hab. subst b.
  destruct (ascii_dec a a) as [_|Hne]; [apply IH|now destruct Hne].
Qed.

Lemma str_match_mono (w : string) (prev : option ascii) (s : string) (k k' : cont) :
  (forall p t, k p t = true -> k' p t = true) ->
  str_match w prev s k = true -> str_match w prev s k' = true.
Proof.
  intros Hk. revert prev s. induction w as [|a w IH]; intros prev s; simpl; [apply Hk|].
  destruct s as [|b s]; [discriminate|].
  destruct (Ascii.eqb a b); [apply IH|discriminate].
Qed.

Lemma any_star_mono (prev : option ascii) (s : string) (k k' : cont) :
  (forall p t, k p t = true -> k' p t = true) ->
  any_star prev s k = true -> any_star prev s k' = true.
Proof.
  intros Hk. revert prev. induction s as [|d s IH]; intros prev; simpl.
  - rewrite !orb_false_r. apply Hk.
  - intros [Hhere|Hlater]%orb_prop; apply orb_true_iff; [left; now apply Hk|right].
    destruct (Ascii.eqb d newline); [discriminate|now apply IH].
Qed.

(** A match stays one under a continuation that accepts more. *)
Lemma re_match_mono (r : regex) (prev : option ascii) (s : string) (k k' : cont) :
  (forall p t, k p t = true -> k' p t = true) ->
  re_match r prev s k = true -> re_match r prev s k' = true.
Proof.
  revert prev s k k'.
  induction r as [w| | |r1 IH1 r2 IH2|r1 IH1 r2 IH2]; intros prev s k k' Hk; simpl.
  - now apply str_match_mono.
  - now apply any_star_mono.
  - intros [Hb Hacc]%andb_prop. rewrite Hb. simpl. now apply Hk.
  - apply IH1. intros q t. now apply IH2.
  - intros [Hl|Hr]%orb_prop; apply orb_true_iff; [left|right]; eauto.
Qed.

Lemma covered_str (w : string) (words : list string) :
  In w words -> Compare.covered (Str w) words.
Proof.
  intros Hin prev s Hm. apply existsb_exists. exists w. split; [exact Hin|].
  simpl in Hm. eapply str_match_prefix, Hm.
Qed.

Lemma covered_alt (r1 r2 : regex) (words : list string) :
  Compare.covered r1 words -> Compare.covered r2 words -> Compare.covered (Alt r1 r2) words.
Proof.
  intros H1 H2 prev s Hm. simpl in Hm.
  apply orb_prop in Hm. destruct Hm; eauto.
Qed.

(** A whole-word match is a match. *)
Lemma covered_word (r : regex) (words : list string) :
  Compare.covered r words -> Compare.covered (word r) words.
Proof.
  intros Hr prev s Hm. unfold word in Hm. simpl in Hm.
  apply andb_prop in Hm. destruct Hm as [_ Hm].
  apply (Hr prev s). revert Hm. apply re_match_mono. reflexivity.
Qed.

Lemma prefix_contains (w s : string) :
  String.prefix w s = true -> contains w s = true.
Proof. intros Hp. destruct s; cbn [contains]; rewrite Hp; reflexivity. Qed.

Lemma contains_later (w : string) (d : ascii) (s : string) :
  contains w s = true -> contains w (String d s) = true.
Proof. intros Hc. cbn [contains]. rewrite Hc. apply orb_true_r. Qed.

Lemma existsb_weaken {A} (f g : A -> bool) (l : list A) :
  (forall x, f x = true -> g x = true) -> existsb f l = true -> existsb g l = true.
Proof.
  intros Hfg. rewrite !existsb_exists. intros (x & Hin & Hf). eauto.
Qed.

(** Where a covered pattern is found, one of the words occurs. *)
Lemma search_any_word (r : regex) (words : list string) (s : string) :
  Compare.covered r words -> search r s = true -> Monolith.any_word words s = true.
Proof.
  intros Hcov. unfold search, Monolith.any_word. generalize (@None ascii).
  induction s as [|d s IH]; intros prev; cbn [search_from].
  - rewrite orb_false_r. intros Hm. apply Hcov in Hm.
    revert Hm. apply existsb_weaken. intros w Hp. now apply prefix_contains.
  - intros [Hm|Hlater]%orb_prop.
    + apply Hcov in Hm. revert Hm. apply existsb_weaken.
      intros w Hp. now apply prefix_contains.
    + apply IH in Hlater. revert Hlater. apply existsb_weaken.
      intros w Hc. now apply contains_later.
Qed.

Lemma any_pattern_any_word (patterns : list regex) (words : list string) (s : string) :
  Forall (fun r => Compare.covered r words) patterns ->
  Processor.any_pattern patterns s = true -> Monolith.any_word words s = true.
Proof.
  intros Hall. unfold Processor.any_pattern. rewrite existsb_exists.
  intros (r & Hin & Hs). rewrite Forall_forall in Hall.
  apply (search_any_word r); [|exact Hs].
  apply Hall. now apply list_elem_of_In.
Qed.

Lemma any_word_two (a b s : string) :
  Monolith.any_word [a; b] s = contains a s || contains b s.
Proof. unfold Monolith.any_word. simpl. now rewrite orb_false_r. Qed.

Lemma any_word_one (a s : string) : Monolith.any_word [a] s = contains a s.
Proof. unfold Monolith.any_word. simpl. now rewrite orb_false_r. Qed.

Create HintDb covered.
#[local] Hint Resolve covered_str covered_alt covered_word : covered.

Ltac covered_patterns :=
  repeat (apply List.Forall_cons; [solve [auto 20 with covered datatypes]|]);
  apply List.Forall_nil.

Ltac keep_tag Hmatch words :=
  apply (any_pattern_any_word _ words) in Hmatch; [|covered_patterns];
  rewrite ?any_word_two, ?any_word_one in Hmatch; rewrite Hmatch;
  repeat (first [now left | left; now left | right]).

(** Among the nine tags both extractors know, those the processor
    draws from a text the server entry point draws as well. *)
Lemma shared_tags_kept (s tag : string) :
  In tag Compare.shared_vocabulary ->
  In tag (Processor.pattern_tags s) -> In tag (Monolith.keyword_tags s).
Proof.
  intros Hshared. unfold Processor.pattern_tags.
  rewrite in_map_iff. intros (entry & Hfst & Hentry).
  apply filter_In in Hentry. destruct Hentry as [Hin Hmatch].
  unfold Processor.tag_patterns in Hin. cbn [In] in Hin.
  unfold Monolith.keyword_tags. rewrite !in_app_iff.
  repeat (destruct Hin as [<-|Hin]); [..|destruct Hin];
    cbn [fst snd] in *; subst tag;
    try (exfalso; cbn [In Compare.shared_vocabulary] in Hshared;
         repeat (destruct Hshared as [Heq|Hshared]; [discriminate Heq|]);
         exact Hshared).
  - keep_tag Hmatch ["@app."; "router"; "endpoint"; "path"].
  - keep_tag Hmatch ["get"; "post"; "put"; "delete"; "patch"].
  - keep_tag Hmatch ["pydantic"; "basemodel"].
  - keep_tag Hmatch ["async"; "await"].
  - keep_tag Hmatch ["dependency"; "depends"].
  - keep_tag Hmatch ["security"; "auth"].
  - keep_tag Hmatch ["database"; "sql"].
  - keep_tag Hmatch ["test"].
  - keep_tag Hmatch ["deploy"; "docker"].
Qed.

(** C9 (as the code has it). The two pipelines chunk alike and tag
    differently.  For every tree, with the documentation base URL of the
    server entry point, the two collectors emit as many chunks, and
    chunk by chunk the same title, content, url, section, subsection
    and embedding text; the ids and the tags are not compared.  For the
    tags: on a section that holds no character the processor would
    strip, every tag of the nine-tag vocabulary of the entry point that
    the processor returns, the entry point returns as well. *)
Theorem C9_same_chunk_bodies_fewer_processor_tags :
  forall (order : PySetOrder) (repo_path : string),
    (forall tree : option (list Fetcher.md_file),
        map Compare.body
          (fst (Fetcher.extract_documents repo_path Monolith.FASTAPI_DOCS_URL tree))
        = map Compare.body (Monolith.extract_docs_from_repo tree))
    /\ (forall content section tag : string,
           sub_outside Processor.keep_char (lower section) = lower section ->
           In tag Compare.shared_vocabulary ->
           In tag (Processor.extract_tags content section) ->
           In tag (Monolith._extract_tags content section)).
Proof.
  intros order repo_path. split; [apply trees_alike|].
  intros content section tag Hclean Hshared Hin.
  apply TagFacts.extract_tags_iff in Hin.
  unfold Monolith._extract_tags. apply TagFacts.listed_iff.
  unfold Monolith.collected_tags.
  destruct Hin as [Hpattern|[Hne ->]].
  - apply (shared_tags_kept _ _ Hshared) in Hpattern.
    destruct (nonempty (lower section)); [apply in_or_app; now left|exact Hpattern].
  - unfold Processor.section_tag in *. rewrite Hclean in *.
    destruct (lower section) as [|a rest]; [now destruct Hne|].
    cbn [nonempty]. apply in_or_app. right. now left.
Qed.

Lemma C9_witness :
  In "async"
    (Monolith._extract_tags "Use async def and await for asynchronous operations"
       "Async Programming")
  /\ In "async-programming"
       (Monolith._extract_tags "Use async def and await for asynchronous operations"
          "Async Programming").
Proof.
  destruct (C9_same_chunk_bodies_fewer_processor_tags canonical_order
              "/tmp/fastapi_repo") as [_ Htags].
  split.
  - apply (Htags "Use async def and await for asynchronous operations"
             "Async Programming" "async"); [reflexivity| |].
    + cbn [In Compare.shared_vocabulary]. tauto.
    + vm_compute. tauto.
  - vm_compute. tauto.
Defined.

(** C9 as stated fails: "Add the middleware" is tagged by the processor
    alone, "together" (which holds "get") by the entry point alone, the
    section "Getting Started!" keeps its exclamation mark in the entry
    point, and for a tree of two files the two chunk sequences differ
    in their ids. *)
Lemma C9_counterexample :
  (Processor.extract_tags "Add the middleware" "" = ["middleware"]
   /\ Monolith._extract_tags "Add the middleware" "" = [])
  /\ (Processor.extract_tags "together" "" = []
      /\ Monolith._extract_tags "together" "" = ["http-methods"])
  /\ (Processor.extract_tags "" "Getting Started!" = ["getting-started"]
      /\ Monolith._extract_tags "" "Getting Started!" = ["getting-started!"])
  /\ fst (Fetcher.extract_documents "/tmp/fastapi_repo" Monolith.FASTAPI_DOCS_URL
            (Some Sample.two_indexes))
     <> Monolith.extract_docs_from_repo (Some Sample.two_indexes).
Proof.
  repeat split; try (vm_compute; reflexivity).
  intros Heq. apply (f_equal (map id)) in Heq.
  vm_compute in Heq. discriminate Heq.
Qed.

End PipelineFacts.

(** ** The repository's own tests, on the model *)

Module RepoTests.
Import Interfaces.

(** tests/test_document_processor.py *)
Example test_extract_tags_api_content :
  let tags := Processor.extract_tags
                "Use @app.get('/items/') to create a GET endpoint" "API Endpoints" in
  In "api" tags /\ In "http-methods" tags /\ In "api-endpoints" tags.
Proof. vm_compute. tauto. Qed.

Example test_extract_tags_pydantic_content :
  let tags := Processor.extract_tags
                "Create a BaseModel class for data validation using Pydantic"
                "Data Models" in
  In "pydantic" tags /\ In "data-models" tags.
Proof. vm_compute. tauto. Qed.

Example test_extract_tags_async_content :
  let tags := Processor.extract_tags
                "Use async def and await for asynchronous operations"
                "Async Programming" in
  In "async" tags /\ In "async-programming" tags.
Proof. vm_compute. tauto. Qed.

Example test_extract_tags_empty_content : Processor.extract_tags "" "" = [].
Proof. vm_compute. reflexivity. Qed.

Example test_extract_tags_no_matches :
  In "random-section"
    (Processor.extract_tags
       "This is just some random text without any specific keywords."
       "Random Section").
Proof. vm_compute. tauto. Qed.

(** tests/test_search_engine.py *)
Example test_get_document_by_id_not_found :
  Engine.get_document_by_id Mock.down_client "test_index" "nonexistent" tt
  = (Ret None, tt).
Proof. reflexivity. Qed.

(** tests/test_mcp_server.py *)
Example test_get_fastapi_doc_by_id_success :
  Server.get_fastapi_doc_by_id
    (Engine.ElasticsearchEngine Mock.memory_client "fastapi_docs")
    "index#0" Sample.loaded_cluster
  = (Ret (Server.Document Sample.stored), Sample.loaded_cluster).
Proof. vm_compute. reflexivity. Qed.

(** tests/test_data_loader.py *)
Example test_load_data_fetcher_error :
  Loader.load_data
    {| clone_or_update_repo := fun c => (Raise "Git error", c);
       extract_documents := fun c => (Ret [], c) |}
    (Mock.raising_engine "ES error") tt
  = (Ret (Server.Error "Data loading failed: Git error"), tt).
Proof. reflexivity. Qed.

Example test_load_data_search_engine_error :
  Loader.load_data
    {| clone_or_update_repo := fun c => (Ret tt, c);
       extract_documents := fun c => (Ret [doc Sample.stored], c) |}
    (Engine.ElasticsearchEngine Mock.down_client "fastapi_docs") tt
  = (Ret (Server.Error "Data loading failed: Connection refused"), tt).
Proof. reflexivity. Qed.

Example test_load_data_success :
  fst (Loader.load_data
         {| clone_or_update_repo := fun c => (Ret tt, c);
            extract_documents := fun c => (Ret [doc Sample.stored], c) |}
         (Engine.ElasticsearchEngine Mock.memory_client "fastapi_docs")
         Sample.loaded_cluster)
  = Ret (Server.Loaded "success" "Successfully loaded 1 documentation chunks" 1).
Proof. vm_compute. reflexivity. Qed.

(** Chunks that share an id overwrite each other in the index: the
    two chunks of [Sample.two_indexes] leave one stored document. *)
Example colliding_ids_overwrite :
  let docs := fst (Fetcher.extract_documents "/tmp/fastapi_repo"
                     "https://fastapi.tiangolo.com" (Some Sample.two_indexes)) in
  length docs = 2
  /\ (size <$> (snd (Engine.index_documents Mock.memory_client "fastapi_docs" docs ∅)
                !! "fastapi_docs")) = Some 1.
Proof. vm_compute. split; reflexivity. Qed.

End RepoTests.

(** * Further properties *)

(** ** Strings *)

Module PyStrMore.
Import PyStr.

Lemma rstrip_idem (s : string) : rstrip (rstrip s) = rstrip s.
Proof.
  induction s as [|c s IH]; [reflexivity|]. simpl.
  destruct (isspace c && negb (nonempty (rstrip s))) eqn:E; [reflexivity|].
  simpl. rewrite IH, E. reflexivity.
Qed.

Lemma lstrip_head (s : string) :
  lstrip s = "" \/ exists c t, lstrip s = String c t /\ isspace c = false.
Proof.
  induction s as [|c s IH]; [now left|]. simpl.
  destruct (isspace c) eqn:E; [exact IH|]. right. eauto.
Qed.

(** Trimming a trimmed text changes nothing. *)
Lemma strip_idem (s : string) : strip (strip s) = strip s.
Proof.
  unfold strip. destruct (lstrip_head s) as [->|(c & t & -> & Hc)]; [reflexivity|].
  simpl. rewrite Hc. simpl. rewrite Hc. simpl. rewrite Hc. simpl.
  now rewrite rstrip_idem.
Qed.

Lemma lower_char_idem (c : ascii) : lower_char (lower_char c) = lower_char c.
Proof. destruct c as [[] [] [] [] [] [] [] []]; reflexivity. Qed.

Lemma lower_idem (s : string) : lower (lower s) = lower s.
Proof.
  induction s as [|c s IH]; [reflexivity|]. simpl. now rewrite lower_char_idem, IH.
Qed.

Lemma or_else_nonempty (a b : string) : b <> "" -> or_else a b <> "".
Proof. unfold or_else. destruct a; simpl; [trivial|discriminate]. Qed.

End PyStrMore.

(** ** The chunker, further *)

Module ProcessorMore.
Import PyStr Interfaces Processor.

Section File.
Context `{PySetOrder}.
Variable file_stem : string.
Variable base_url : string.

Local Abbreviation step := (step file_stem base_url).
Local Abbreviation run := (run file_stem base_url).
Local Abbreviation ok := (Shape.chunk_ok file_stem base_url).

Lemma step_keeps_ok (st : state) (e : element) :
  strip (current_section st) = current_section st ->
  strip (current_subsection st) = current_subsection st ->
  Forall ok (chunks st) ->
  strip (current_section (step st e)) = current_section (step st e)
  /\ strip (current_subsection (step st e)) = current_subsection (step st e)
  /\ Forall ok (chunks (step st e)).
Proof.
  intros Hs Hu Hall.
  destruct (Spec.retained e) eqn:Hr.
  - rewrite (ProcessorFacts.step_retained _ _ _ _ Hr). simpl.
    split; [exact Hs|]. split; [exact Hu|].
    apply Forall_app. split; [exact Hall|].
    apply List.Forall_cons; [|apply List.Forall_nil].
    unfold Spec.retained in Hr. apply andb_prop in Hr. destruct Hr as [_ Hlen].
    apply Nat.ltb_lt in Hlen.
    unfold Shape.chunk_ok. simpl.
    repeat split; try assumption; try reflexivity. apply PyStrMore.strip_idem.
  - rewrite ProcessorFacts.step_section, ProcessorFacts.step_subsection,
      (ProcessorFacts.step_dropped _ _ _ _ Hr).
    destruct (name e); repeat split; try assumption; try reflexivity;
      apply PyStrMore.strip_idem.
Qed.

Lemma run_keeps_ok (elements : list element) (st : state) :
  strip (current_section st) = current_section st ->
  strip (current_subsection st) = current_subsection st ->
  Forall ok (chunks st) ->
  Forall ok (chunks (run st elements)).
Proof.
  revert st. induction elements as [|e es IH]; intros st Hs Hu Hall; [exact Hall|].
  rewrite ProcessorFacts.run_cons.
  destruct (step_keeps_ok st e Hs Hu Hall) as (Hs' & Hu' & Hall').
  now apply IH.
Qed.

Lemma chunks_ok (elements : list element) :
  Forall ok (chunk_elements file_stem base_url elements).
Proof.
  apply run_keeps_ok; try reflexivity. apply List.Forall_nil.
Qed.

End File.

(** X1. Every chunk the processor returns for a file holds a content of
    more than 50 characters with no whitespace at either end, a section
    and a subsection that are trimmed as well, the URL the file was
    processed with, the embedding text "section subsection content",
    and the tags of its own content and section. *)
Theorem X1_chunk_fields :
  forall (order : PySetOrder) (file_stem base_url : string)
         (elements : list element) (c : DocumentChunk),
    In c (chunk_elements file_stem base_url elements) ->
    50 < len (content c)
    /\ strip (content c) = content c
    /\ strip (section c) = section c
    /\ strip (subsection c) = subsection c
    /\ url c = base_url
    /\ embedding_text c = section c +:+ " " +:+ subsection c +:+ " " +:+ content c
    /\ tags c = extract_tags (content c) (section c).
Proof.
  intros order file_stem base_url elements c Hin.
  pose proof (chunks_ok file_stem base_url elements) as Hall.
  rewrite List.Forall_forall in Hall. apply Hall in Hin.
  unfold Shape.chunk_ok in Hin. tauto.
Qed.

Lemma X1_witness :
  exists c,
    In c (chunk_elements "index" "https://fastapi.tiangolo.com/index"
            Sample.intro_details)
    /\ 50 < len (content c)
    /\ url c = "https://fastapi.tiangolo.com/index".
Proof.
  pose (c := make_chunk "index" "https://fastapi.tiangolo.com/index"
               (mkState [] "Intro" "") Sample.paragraph_a).
  assert (Hin : In c (chunk_elements "index" "https://fastapi.tiangolo.com/index"
                        Sample.intro_details)) by (left; reflexivity).
  exists c. split; [exact Hin|].
  destruct (X1_chunk_fields canonical_order "index"
              "https://fastapi.tiangolo.com/index" Sample.intro_details c Hin)
    as (Hlen & _ & _ & _ & Hurl & _).
  split; assumption.
Defined.

(** X2. The chunks of one file are numbered from 0 in the order they are
    emitted: the k-th id is the file stem, "#" and k in decimal, one
    for each retained block, so within a file no id occurs twice. *)
Theorem X2_ids_count_up :
  forall (order : PySetOrder) (file_stem base_url : string) (elements : list element),
    map id (chunk_elements file_stem base_url elements)
    = map (Shape.nth_id file_stem)
        (seq 0 (length (List.filter Spec.retained elements)))
    /\ NoDup (map id (chunk_elements file_stem base_url elements)).
Proof.
  intros order file_stem base_url elements.
  assert (Hids : map id (chunk_elements file_stem base_url elements)
                 = map (Shape.nth_id file_stem)
                     (seq 0 (length (List.filter Spec.retained elements)))).
  { unfold chunk_elements. now rewrite ProcessorFacts.run_ids. }
  split; [exact Hids|]. rewrite Hids.
  apply NoDup_ListNoDup, Finite.Injective_map_NoDup; [|apply List.seq_NoDup].
  intros n m Heq. unfold Shape.nth_id in Heq.
  apply PyStrFacts.append_inv_head, PyStrFacts.append_inv_head in Heq.
  now apply PyStrFacts.of_nat_inj.
Qed.

(** X3. The title of a chunk is its subsection when that is not empty,
    else its section when that is not empty, else the stem of the
    file; so a file with a non-empty stem never yields a chunk with an
    empty title. *)
Theorem X3_title_falls_back :
  forall (order : PySetOrder) (file_stem base_url : string)
         (elements : list element) (c : DocumentChunk),
    In c (chunk_elements file_stem base_url elements) ->
    (subsection c <> "" -> title c = subsection c)
    /\ (subsection c = "" -> section c <> "" -> title c = section c)
    /\ (subsection c = "" -> section c = "" -> title c = file_stem)
    /\ (file_stem <> "" -> title c <> "").
Proof.
  intros order file_stem base_url elements c Hin.
  pose proof (chunks_ok file_stem base_url elements) as Hall.
  rewrite List.Forall_forall in Hall. apply Hall in Hin.
  destruct Hin as (_ & _ & _ & _ & _ & Htitle & _). rewrite Htitle.
  unfold or_else.
  destruct (subsection c) as [|a u]; destruct (section c) as [|b v]; simpl;
    repeat split; intros; congruence.
Qed.

Lemma X3_witness :
  exists c,
    In c (chunk_elements "index" "https://fastapi.tiangolo.com/index"
            [mkElement p Sample.paragraph_a])
    /\ title c = "index".
Proof.
  pose (c := make_chunk "index" "https://fastapi.tiangolo.com/index" init
               Sample.paragraph_a).
  assert (Hin : In c (chunk_elements "index" "https://fastapi.tiangolo.com/index"
                        [mkElement p Sample.paragraph_a])) by (left; reflexivity).
  exists c. split; [exact Hin|].
  destruct (X3_title_falls_back canonical_order "index"
              "https://fastapi.tiangolo.com/index" [mkElement p Sample.paragraph_a]
              c Hin) as (_ & _ & Hstem & _).
  apply Hstem; reflexivity.
Defined.

(** X4. The chunker never looks ahead: the chunks of the first blocks of
    a document are the first chunks of the whole document, whatever
    follows, and a following block adds at most one chunk. *)
Theorem X4_later_blocks_only_append :
  forall (order : PySetOrder) (file_stem base_url : string)
         (first rest : list element),
    exists more,
      chunk_elements file_stem base_url (first ++ rest)
      = chunk_elements file_stem base_url first ++ more
      /\ length more <= length rest.
Proof.
  intros order file_stem base_url first rest.
  unfold chunk_elements. rewrite ProcessorFacts.run_app.
  generalize (run file_stem base_url init first). clear first.
  induction rest as [|e es IH]; intros st.
  - exists []. simpl. split; [now rewrite app_nil_r|lia].
  - rewrite ProcessorFacts.run_cons.
    destruct (IH (step file_stem base_url st e)) as (more & Heq & Hlen).
    rewrite Heq. destruct (Spec.retained e) eqn:Hr.
    + rewrite (ProcessorFacts.step_retained _ _ _ _ Hr). simpl.
      eexists. rewrite <- app_assoc. split; [reflexivity|]. simpl. lia.
    + rewrite (ProcessorFacts.step_dropped _ _ _ _ Hr).
      exists more. split; [reflexivity|]. simpl. lia.
Qed.

End ProcessorMore.

(** ** The tag extractor, further *)

Module TagMore.
Import PyStr Re Processor.

Lemma collected_lower (content section : string) :
  collected_tags (lower content) (lower section) = collected_tags content section.
Proof. unfold collected_tags. now rewrite !PyStrMore.lower_idem. Qed.

(** X5. Tagging ignores case: two contents that differ only in case,
    with two sections that differ only in case, get the same tags, and
    lower-casing the content and the section beforehand changes
    nothing. *)
Theorem X5_tags_ignore_case :
  forall (order : PySetOrder) (content section : string),
    extract_tags (lower content) (lower section) = extract_tags content section
    /\ (forall content' section' : string,
           lower content' = lower content -> lower section' = lower section ->
           extract_tags content' section' = extract_tags content section).
Proof.
  intros order content section. split.
  - unfold extract_tags. now rewrite collected_lower.
  - intros content' section' Hc Hs. unfold extract_tags, collected_tags.
    now rewrite Hc, Hs.
Qed.

Lemma X5_witness :
  extract_tags "Send a GET Request" "API Endpoints"
  = extract_tags "send a get request" "api endpoints".
Proof.
  destruct (X5_tags_ignore_case canonical_order "send a get request" "api endpoints")
    as [_ Hsame].
  apply Hsame; reflexivity.
Defined.

Lemma pattern_tags_in_table (content_lower tag : string) :
  In tag (pattern_tags content_lower) -> In tag (map fst tag_patterns).
Proof.
  unfold pattern_tags. rewrite !in_map_iff.
  intros (entry & Hfst & Hin). apply filter_In in Hin. destruct Hin as [Hin _].
  exists entry. now split.
Qed.

Lemma collected_length (content section : string) :
  length (collected_tags content section) <= 16.
Proof.
  unfold collected_tags.
  assert (Hp : length (pattern_tags (lower content)) <= 15).
  { unfold pattern_tags. rewrite length_map.
    etransitivity; [apply List.filter_length_le|]. reflexivity. }
  destruct (nonempty (lower section)); [|lia].
  destruct (nonempty (section_tag (lower section))); [|lia].
  rewrite length_app. simpl. lia.
Qed.

(** X6. A chunk never gets more than 16 tags: each returned tag is one
    of the fifteen of the pattern table or is the section tag. *)
Theorem X6_at_most_sixteen_tags :
  forall (order : PySetOrder) (content section : string),
    (forall tag : string,
        In tag (extract_tags content section) ->
        In tag (map fst tag_patterns) \/ tag = section_tag (lower section))
    /\ length (extract_tags content section) <= 16.
Proof.
  intros order content section. split.
  - intros tag Hin. apply TagFacts.extract_tags_iff in Hin.
    destruct Hin as [Hin|[_ ->]]; [left|now right].
    now apply (pattern_tags_in_table (lower content)).
  - etransitivity; [|apply (collected_length content section)].
    apply NoDup_incl_length.
    + apply NoDup_ListNoDup, TagFacts.listed_NoDup.
    + intros tag Hin. unfold extract_tags in Hin.
      exact (proj1 (TagFacts.listed_iff _ _) Hin).
Qed.

Lemma X6_witness :
  In "api" (map fst tag_patterns) \/ "api" = section_tag (lower "Routing").
Proof.
  apply (proj1 (X6_at_most_sixteen_tags canonical_order "Declare a router" "Routing")).
  vm_compute. tauto.
Defined.





(** X8. Content and section are tagged apart: the tags of a content
    under a section are those of the content under no section together
    with those of the section under no content. *)
Theorem X8_content_and_section_apart :
  forall (order : PySetOrder) (content section tag : string),
    In tag (extract_tags content section)
    <-> In tag (extract_tags content "") \/ In tag (extract_tags "" section).
Proof.
  intros order content section tag.
  rewrite !TagFacts.extract_tags_iff.
  change (lower "") with "".
  change (section_tag "") with "".
  assert (Hnone : pattern_tags "" = []) by (vm_compute; reflexivity).
  rewrite Hnone. simpl. split.
  - intros [Hp|Hs]; [left; now left|right; now right].
  - intros [[Hp|[Hne _]]|[[]|Hs]]; [now left|now destruct Hne|now right].
Qed.

(** X9. The catalogue of [get_available_tags] lists the tags of the
    pattern table, in the table's order, so every tag the processor
    draws from a content has a description there; the catalogue of the
    server entry point lists its nine tags, so every tag it draws from
    a content has one too.  (Section tags are in neither.) *)
Theorem X9_catalogue_covers_pattern_tags :
  map fst Tools.get_available_tags = map fst tag_patterns
  /\ (forall content_lower tag : string,
         In tag (pattern_tags content_lower) ->
         exists description, In (tag, description) Tools.get_available_tags)
  /\ (forall content_lower tag : string,
         In tag (Monolith.keyword_tags content_lower) ->
         exists description, In (tag, description) MonolithTools.get_available_tags).
Proof.
  split; [reflexivity|]. split.
  - intros content_lower tag Hin. apply pattern_tags_in_table in Hin.
    change (map fst tag_patterns) with (map fst Tools.get_available_tags) in Hin.
    apply in_map_iff in Hin. destruct Hin as ([t d] & Heq & Hin).
    simpl in Heq. subst t. eauto.
  - intros content_lower tag Hin. unfold Monolith.keyword_tags in Hin.
    assert (Hlisted : In tag (map fst MonolithTools.get_available_tags)).
    { rewrite !in_app_iff in Hin.
      repeat (destruct Hin as [Hin|Hin]);
        match type of Hin with
        | In _ (if ?b then _ else _) =>
            destruct b; [destruct Hin as [<-|[]]; cbn; tauto|destruct Hin]
        end. }
    apply in_map_iff in Hlisted. destruct Hlisted as ([t d] & Heq & Hlisted).
    simpl in Heq. subst t. eauto.
Qed.

Lemma X9_witness :
  exists description, In ("async", description) Tools.get_available_tags.
Proof.
  apply (proj1 (proj2 X9_catalogue_covers_pattern_tags) "use async def").
  vm_compute. tauto.
Defined.

End TagMore.

(** ** The collector, further *)

Module FetcherMore.
Import PyStr Interfaces Fetcher.

Section Collector.
Context `{PySetOrder}.
Variable repo_path : string.
Variable base_docs_url : string.

Local Abbreviation visit := (visit repo_path base_docs_url).
Local Abbreviation error_lines := (Shape.error_lines repo_path base_docs_url).

Lemma visit_log_exact (a : acc) (f : md_file) :
  snd (visit a f) = snd a ++ error_lines f.
Proof.
  unfold Fetcher.visit, Shape.error_lines.
  destruct (process repo_path base_docs_url f) as [[|c cs]|e]; simpl;
    now rewrite ?app_nil_r.
Qed.

Lemma walk_log_exact (files : list md_file) (a : acc) :
  snd (fold_left visit files a) = snd a ++ flat_map error_lines files.
Proof.
  revert a. induction files as [|f fs IH]; intros a; simpl.
  - now rewrite app_nil_r.
  - rewrite IH, visit_log_exact. now rewrite <- app_assoc.
Qed.

End Collector.

(** X10. Every chunk the collector returns comes from a file of the
    tree that was read and rendered: it is one of the chunks of that
    file's elements, its URL is the documentation base URL joined with
    the file's relative path without the suffix, and its id is the
    file's stem with an ordinal. *)
Theorem X10_chunks_come_from_files :
  forall (order : PySetOrder) (repo_path base_docs_url : string)
         (tree : option (list md_file)) (c : DocumentChunk),
    In c (fst (extract_documents repo_path base_docs_url tree)) ->
    exists files f elements,
      tree = Some files /\ In f files /\ rendered f = Ret elements
      /\ In c (Processor.chunk_elements (PyPath.stem [file_name f])
                 (base_url base_docs_url f) elements)
      /\ url c = base_docs_url +:+ "/"
                 +:+ PyPath.str (PyPath.with_suffix_empty (rel_path f))
      /\ exists k, id c = Shape.nth_id (PyPath.stem [file_name f]) k.
Proof.
  intros order repo_path base_docs_url [files|] c Hin; [|destruct Hin].
  simpl in Hin. rewrite FetcherFacts.walk_docs in Hin. simpl in Hin.
  apply in_concat in Hin. destruct Hin as (chunks & Hchunks & Hin).
  apply in_map_iff in Hchunks. destruct Hchunks as (f & <- & Hf).
  unfold file_chunks, process, Processor.process_markdown_file in Hin.
  destruct (rendered f) as [elements|e] eqn:Hr; simpl in Hin; [|destruct Hin].
  rewrite FetcherFacts.stem_full_path in Hin.
  exists files, f, elements. repeat split; try assumption.
  - pose proof (ProcessorMore.chunks_ok (PyPath.stem [file_name f])
                  (base_url base_docs_url f) elements) as Hall.
    rewrite List.Forall_forall in Hall. apply Hall in Hin.
    destruct Hin as (_ & _ & _ & _ & Hurl & _). exact Hurl.
  - apply (in_map id) in Hin. unfold Processor.chunk_elements in Hin.
    rewrite ProcessorFacts.run_ids in Hin. simpl in Hin.
    apply in_map_iff in Hin. destruct Hin as (k & Hk & _). eauto.
Qed.

Lemma X10_witness :
  exists c f,
    In c (fst (extract_documents "/tmp/fastapi_repo" "https://fastapi.tiangolo.com"
                 (Some Sample.two_indexes)))
    /\ In f Sample.two_indexes
    /\ url c = "https://fastapi.tiangolo.com" +:+ "/"
               +:+ PyPath.str (PyPath.with_suffix_empty (rel_path f)).
Proof.
  pose (c := Processor.make_chunk "index" "https://fastapi.tiangolo.com/tutorial/index"
               Processor.init Sample.paragraph_a).
  assert (Hin : In c (fst (extract_documents "/tmp/fastapi_repo"
                             "https://fastapi.tiangolo.com" (Some Sample.two_indexes))))
    by (left; reflexivity).
  destruct (X10_chunks_come_from_files canonical_order "/tmp/fastapi_repo"
              "https://fastapi.tiangolo.com" (Some Sample.two_indexes) c Hin)
    as (files & f & elements & Htree & Hf & _ & _ & Hurl & _).
  injection Htree as <-.
  exists c, f. split; [exact Hin|]. split; [exact Hf|exact Hurl].
Defined.

(** The path of a file as the log shows it, for several ways of
    writing the repository path: a trailing slash, doubled slashes and
    single dots leave no trace, and exactly two leading slashes are
    kept. *)
Example shown_as_pathlib_prints :
  let bad := mkFile ["tutorial"] "bad.md" (Raise "boom") in
  shown "/tmp/fastapi_repo" bad = "/tmp/fastapi_repo/docs/en/tutorial/bad.md"
  /\ shown "/tmp/repo/" bad = "/tmp/repo/docs/en/tutorial/bad.md"
  /\ shown "repo/" bad = "repo/docs/en/tutorial/bad.md"
  /\ shown "." bad = "docs/en/tutorial/bad.md"
  /\ shown "" bad = "docs/en/tutorial/bad.md"
  /\ shown "a//b/./c/" bad = "a/b/c/docs/en/tutorial/bad.md"
  /\ shown "/" bad = "/docs/en/tutorial/bad.md"
  /\ shown "//srv" bad = "//srv/docs/en/tutorial/bad.md"
  /\ shown "///srv" bad = "/srv/docs/en/tutorial/bad.md"
  /\ shown ".." bad = "../docs/en/tutorial/bad.md".
Proof. vm_compute. repeat split. Qed.

(** X11. The collector's log tells all that went wrong and nothing
    else: for an existing docs directory it holds one error line for
    each file whose processing raised, in enumeration order, followed
    by the line that reports how many chunks are returned; for a
    missing directory it holds the one warning and no chunk is
    returned.  The error line of a file shows the file's path as
    pathlib prints it, that is the root and the components of the
    repository path, then [docs], [en] and the file's place below,
    joined by single slashes, and the message of the exception; a file
    that is read and rendered has no line. *)
Theorem X11_log_lists_the_failures :
  forall (order : PySetOrder) (repo_path base_docs_url : string),
    (forall files : list md_file,
        snd (extract_documents repo_path base_docs_url (Some files))
        = flat_map (Shape.error_lines repo_path base_docs_url) files
          ++ ["Extracted "
              +:+ of_nat (length (fst (extract_documents repo_path base_docs_url
                                         (Some files))))
              +:+ " documentation chunks from repository"])
    /\ (forall (dirs : list string) (file msg : string),
           Shape.error_lines repo_path base_docs_url (mkFile dirs file (Raise msg))
           = ["Error processing "
              +:+ PyPath.render (PyPath.root_of repo_path)
                    (PyPath.parts_of repo_path ++ ["docs"; "en"] ++ dirs ++ [file])
              +:+ ": " +:+ msg])
    /\ (forall (dirs : list string) (file : string) (elements : list Processor.element),
           Shape.error_lines repo_path base_docs_url (mkFile dirs file (Ret elements))
           = [])
    /\ extract_documents repo_path base_docs_url None
       = ([], ["English docs directory not found in repository"]).
Proof.
  intros order repo_path base_docs_url. split; [|split; [|split]].
  - intros files. simpl. now rewrite walk_log_exact.
  - intros dirs file msg. unfold Shape.error_lines, process. simpl.
    unfold shown, full_path, docs_path, rel_path. simpl.
    now rewrite <- app_assoc.
  - intros dirs file elements. reflexivity.
  - reflexivity.
Qed.

End FetcherMore.

(** ** The engine, further *)

Module EngineMore.
Import Interfaces.

Local Abbreviation memory := Mock.memory_client.

(** A step that returns hands its value and its world to the next. *)
Lemma M_bind_ret {C A B} (m : M C A) (k : A -> M C B) (c c' : C) (a : A) :
  m c = (Ret a, c') -> (m ≫= k) c = k a c'.
Proof. intros Hm. unfold mbind, M_bind. now rewrite Hm. Qed.

Lemma M_bind_raise {C A B} (m : M C A) (k : A -> M C B) (c c' : C) (msg : string) :
  m c = (Raise msg, c') -> (m ≫= k) c = (Raise msg, c').
Proof. intros Hm. unfold mbind, M_bind. now rewrite Hm. Qed.

(** The action the engine builds for a chunk on the stand-in. *)
Local Abbreviation action_of index_name :=
  (fun d : DocumentChunk => Engine.mkAction index_name (id d) (Shape.stamped d)).

Lemma memory_actions (index_name : string) (documents : list DocumentChunk)
    (c : gmap string (gmap string source)) :
  for_each
    (fun d =>
       now ← Engine.utcnow_isoformat memory;
       mret {| Engine._index := index_name;
               Engine._id := id d;
               Engine.action_source := {| doc := d; indexed_at := now |} |})
    documents c
  = (Ret (map (action_of index_name) documents), c).
Proof.
  induction documents as [|d ds IH]; [reflexivity|].
  cbn [for_each].
  erewrite M_bind_ret; [|reflexivity].
  erewrite M_bind_ret; [|exact IH]. reflexivity.
Qed.

(** What [async_bulk] of the stand-in leaves in the cluster. *)
Local Abbreviation bulk :=
  (fold_left
     (fun (c : gmap string (gmap string source)) a =>
        <[Engine._index a := Mock.store (default ∅ (c !! Engine._index a)) a]> c)).

Lemma index_documents_memory (index_name : string) (documents : list DocumentChunk)
    (c : gmap string (gmap string source)) :
  Engine.index_documents memory index_name documents c
  = (Ret tt, bulk (map (action_of index_name) documents) c).
Proof.
  unfold Engine.index_documents.
  erewrite M_bind_ret; [|apply memory_actions]. reflexivity.
Qed.

Lemma bulk_other (index_name other : string) (documents : list DocumentChunk)
    (c : gmap string (gmap string source)) :
  other <> index_name ->
  bulk (map (action_of index_name) documents) c !! other = c !! other.
Proof.
  intros Hne. revert c. induction documents as [|d ds IH]; intros c; [reflexivity|].
  cbn [map fold_left]. rewrite IH. simpl Engine._index.
  apply lookup_insert_ne. congruence.
Qed.

Lemma bulk_index (index_name : string) (documents : list DocumentChunk)
    (c : gmap string (gmap string source)) :
  default ∅ (bulk (map (action_of index_name) documents) c !! index_name)
  = fold_left Mock.store (map (action_of index_name) documents)
      (default ∅ (c !! index_name)).
Proof.
  revert c. induction documents as [|d ds IH]; intros c; [reflexivity|].
  cbn [map fold_left]. rewrite IH. simpl Engine._index.
  now rewrite lookup_insert_eq.
Qed.

Lemma bulk_index_some (index_name : string) (documents : list DocumentChunk)
    (c : gmap string (gmap string source)) :
  documents <> [] ->
  bulk (map (action_of index_name) documents) c !! index_name
  = Some (fold_left Mock.store (map (action_of index_name) documents)
            (default ∅ (c !! index_name))).
Proof.
  intros Hne. rewrite <- bulk_index.
  destruct documents as [|d ds]; [now destruct Hne|]. clear Hne.
  cbn [map fold_left]. simpl Engine._index.
  set (c1 := <[index_name := _]> c).
  assert (Hsome : is_Some (c1 !! index_name)).
  { unfold c1. rewrite lookup_insert_eq. eauto. }
  clearbody c1. revert c1 Hsome.
  induction ds as [|e es IH]; intros c1 [m Hm]; cbn [map fold_left];
    simpl Engine._index.
  - now rewrite Hm.
  - apply IH. rewrite lookup_insert_eq. eauto.
Qed.

Lemma stored_absent (index_name key : string) (documents : list DocumentChunk)
    (m : gmap string source) :
  ~ In key (map id documents) ->
  fold_left Mock.store (map (action_of index_name) documents) m !! key = m !! key.
Proof.
  revert m. induction documents as [|d ds IH]; intros m Hnot; [reflexivity|].
  simpl in *. rewrite IH by tauto.
  unfold Mock.store. simpl. apply lookup_insert_ne. tauto.
Qed.

Lemma stored_present (index_name : string) (documents : list DocumentChunk)
    (m : gmap string source) (d : DocumentChunk) :
  NoDup (map id documents) -> In d documents ->
  fold_left Mock.store (map (action_of index_name) documents) m !! id d
  = Some (Shape.stamped d).
Proof.
  revert m. induction documents as [|e es IH]; intros m Hnd Hin; [destruct Hin|].
  simpl in Hnd. apply NoDup_cons in Hnd. destruct Hnd as [Hfresh Hnd].
  simpl. destruct Hin as [->|Hin].
  - rewrite stored_absent; [|now rewrite <- list_elem_of_In].
    unfold Mock.store. simpl. apply lookup_insert_eq.
  - now apply IH.
Qed.

Lemma get_memory (index_name key : string) (c : gmap string (gmap string source)) :
  Engine.get_document_by_id memory index_name key c
  = (Ret (c !! index_name ≫= fun docs => docs !! key), c).
Proof.
  unfold Engine.get_document_by_id, try_M. unfold mbind at 1. unfold M_bind. simpl.
  unfold Mock.cluster.
  destruct (c !! index_name ≫= fun docs => docs !! key); reflexivity.
Qed.

Lemma create_index_memory (index_name : string) (c : gmap string (gmap string source)) :
  Engine.create_index memory index_name c = (Ret tt, <[index_name := ∅]> c).
Proof.
  unfold Engine.create_index, try_M, mbind, M_bind. simpl.
  unfold Mock.cluster.
  destruct (c !! index_name) as [docs|] eqn:Hc; simpl.
  - rewrite Hc. simpl. rewrite lookup_delete_eq. simpl.
    now rewrite insert_delete_eq.
  - now rewrite Hc.
Qed.

(** X12. On an in-memory cluster, [create_index] returns normally
    whether or not the index existed, and afterwards the index exists
    and holds no document, whatever it held before, while every other
    index of the cluster is as it was. *)
Theorem X12_create_index_empties :
  forall (index_name : string) (c : gmap string (gmap string source)),
    fst (Engine.create_index memory index_name c) = Ret tt
    /\ snd (Engine.create_index memory index_name c) !! index_name = Some ∅
    /\ (forall doc_id : string,
           fst (Engine.get_document_by_id memory index_name doc_id
                  (snd (Engine.create_index memory index_name c)))
           = Ret None)
    /\ (forall other : string,
           other <> index_name ->
           snd (Engine.create_index memory index_name c) !! other = c !! other).
Proof.
  intros index_name c. rewrite create_index_memory. simpl.
  split; [reflexivity|]. split; [apply lookup_insert_eq|]. split.
  - intros doc_id. rewrite get_memory. simpl. now rewrite lookup_insert_eq.
  - intros other Hne. now apply lookup_insert_ne.
Qed.

Lemma X12_witness :
  snd (Engine.create_index memory "fastapi_docs"
         (<["other" := {[ "x#0" := Sample.stored ]}]> Sample.loaded_cluster))
    !! "other"
  = Some {[ "x#0" := Sample.stored ]}.
Proof.
  destruct (X12_create_index_empties "fastapi_docs"
              (<["other" := {[ "x#0" := Sample.stored ]}]> Sample.loaded_cluster))
    as (_ & _ & _ & Hother).
  rewrite Hother; [reflexivity|discriminate].
Defined.

(** X13. On an in-memory cluster, indexing and lookup round-trip: after
    [index_documents] of chunks with pairwise distinct ids, looking up
    the id of any of them returns that chunk with its time stamp, and
    an id that is neither among them nor was stored before is not
    found. *)
Theorem X13_index_then_get :
  forall (index_name : string) (documents : list DocumentChunk) (c : gmap string (gmap string source)),
    NoDup (map id documents) ->
    let c' := snd (Engine.index_documents memory index_name documents c) in
    fst (Engine.index_documents memory index_name documents c) = Ret tt
    /\ (forall d : DocumentChunk,
           In d documents ->
           Engine.get_document_by_id memory index_name (id d) c'
           = (Ret (Some (Shape.stamped d)), c'))
    /\ (forall doc_id : string,
           ~ In doc_id (map id documents) ->
           fst (Engine.get_document_by_id memory index_name doc_id c')
           = fst (Engine.get_document_by_id memory index_name doc_id c)).
Proof.
  intros index_name documents c Hnd c'. subst c'.
  rewrite index_documents_memory. simpl. split; [reflexivity|]. split.
  - intros d Hin. rewrite get_memory. f_equal. f_equal.
    rewrite bulk_index_some by (intros ->; destruct Hin). simpl.
    now apply stored_present.
  - intros doc_id Hnot. rewrite !get_memory. simpl. f_equal.
    destruct documents as [|d ds]; [reflexivity|].
    rewrite bulk_index_some by discriminate. cbn [mbind option_bind].
    rewrite stored_absent by exact Hnot.
    destruct (c !! index_name); reflexivity.
Qed.

Lemma X13_witness :
  Engine.get_document_by_id memory "fastapi_docs" "index#0"
    (snd (Engine.index_documents memory "fastapi_docs" [doc Sample.stored] ∅))
  = (Ret (Some Sample.stored),
     snd (Engine.index_documents memory "fastapi_docs" [doc Sample.stored] ∅)).
Proof.
  assert (Hnd : NoDup (map id [doc Sample.stored])).
  { apply NoDup_cons. split; [|apply NoDup_nil_2].
    intros Hin. apply elem_of_nil in Hin. exact Hin. }
  destruct (X13_index_then_get "fastapi_docs" [doc Sample.stored] ∅ Hnd)
    as (_ & Hget & _).
  apply (Hget (doc Sample.stored)). left. reflexivity.
Defined.

(** What [index_documents] does once its actions are built. *)
Lemma index_documents_built {C} (es : Engine.es_client C) (index_name : string)
    (documents : list DocumentChunk) (actions : list Engine.action) (c c1 : C) :
  Shape.built es index_name documents c actions c1 ->
  Engine.index_documents es index_name documents c
  = match Engine.async_bulk es actions c1 with
    | (Ret _, c2) => (Ret tt, c2)
    | (Raise msg, c2) => (Raise msg, c2)
    end.
Proof.
  intros Hbuilt. unfold Engine.index_documents.
  assert (Hactions :
            for_each
              (fun d =>
                 now ← Engine.utcnow_isoformat es;
                 mret {| Engine._index := index_name;
                         Engine._id := id d;
                         Engine.action_source := {| doc := d; indexed_at := now |} |})
              documents c
            = (Ret actions, c1)).
  { induction Hbuilt as [c|d ds now actions c c1 c2 Hnow _ IH]; [reflexivity|].
    cbn [for_each].
    erewrite M_bind_ret; [|erewrite M_bind_ret; [reflexivity|exact Hnow]].
    erewrite M_bind_ret; [|exact IH]. reflexivity. }
  rewrite (M_bind_ret _ _ _ _ _ Hactions).
  unfold try_M, mbind, M_bind, mret, M_ret.
  destruct (Engine.async_bulk es actions c1) as [[r|msg] c2]; reflexivity.
Qed.

Lemma built_ids {C} (es : Engine.es_client C) (index_name : string)
    (documents : list DocumentChunk) (actions : list Engine.action) (c c1 : C) :
  Shape.built es index_name documents c actions c1 ->
  map Engine._id actions = map id documents
  /\ map (fun a => doc (Engine.action_source a)) actions = documents
  /\ List.Forall (fun a => Engine._index a = index_name) actions.
Proof.
  induction 1 as [c|d ds now actions c c1 c2 _ _ (IHid & IHdoc & IHindex)]; simpl.
  - repeat split. constructor.
  - rewrite IHid, IHdoc. repeat split. now constructor.
Qed.

Lemma built_total {C} (es : Engine.es_client C) (index_name : string)
    (documents : list DocumentChunk) :
  (forall c : C, exists now c1, Engine.utcnow_isoformat es c = (Ret now, c1)) ->
  forall c : C, exists actions c1, Shape.built es index_name documents c actions c1.
Proof.
  intros Hclock. induction documents as [|d ds IH]; intros c.
  - eexists _, _. constructor.
  - destruct (Hclock c) as (now & c1 & Hnow).
    destruct (IH c1) as (actions & c2 & Hbuilt).
    eexists _, _. econstructor; eassumption.
Qed.

(** X14. The two writing methods of the engine never swallow a
    failure of the client: when the existence check, the deletion of an
    existing index or the creation raises, [create_index] raises with
    the same message and makes no further call (the world is as the
    failing call left it), and an index reported absent is not
    deleted.  [index_documents], for any list of chunks, hands
    [async_bulk] one action per chunk, in order, each under the chunk's
    id and in the engine's index; when [async_bulk] raises,
    [index_documents] raises with the same message, and when it returns,
    [index_documents] returns. *)
Theorem X14_write_failures_propagate :
  forall (C : Type) (es : Engine.es_client C) (index_name : string) (c : C),
    (forall (msg : string) (c1 : C),
        Engine.indices_exists es index_name c = (Raise msg, c1) ->
        Engine.create_index es index_name c = (Raise msg, c1))
    /\ (forall (msg : string) (c1 c2 : C),
           Engine.indices_exists es index_name c = (Ret true, c1) ->
           Engine.indices_delete es index_name c1 = (Raise msg, c2) ->
           Engine.create_index es index_name c = (Raise msg, c2))
    /\ (forall (c1 : C),
           Engine.indices_exists es index_name c = (Ret false, c1) ->
           Engine.create_index es index_name c = Engine.indices_create es index_name c1)
    /\ (forall (msg : string) (c1 c2 c3 : C),
           Engine.indices_exists es index_name c = (Ret true, c1) ->
           Engine.indices_delete es index_name c1 = (Ret tt, c2) ->
           Engine.indices_create es index_name c2 = (Raise msg, c3) ->
           Engine.create_index es index_name c = (Raise msg, c3))
    /\ (forall (documents : list DocumentChunk) (actions : list Engine.action)
               (c1 : C),
           Shape.built es index_name documents c actions c1 ->
           map Engine._id actions = map id documents
           /\ map (fun a => doc (Engine.action_source a)) actions = documents
           /\ List.Forall (fun a => Engine._index a = index_name) actions
           /\ (forall (msg : string) (c2 : C),
                  Engine.async_bulk es actions c1 = (Raise msg, c2) ->
                  Engine.index_documents es index_name documents c = (Raise msg, c2))
           /\ (forall (report : nat * list string) (c2 : C),
                  Engine.async_bulk es actions c1 = (Ret report, c2) ->
                  Engine.index_documents es index_name documents c = (Ret tt, c2)))
    /\ (forall documents : list DocumentChunk,
           (forall c0 : C, exists now c1, Engine.utcnow_isoformat es c0 = (Ret now, c1)) ->
           exists actions c1, Shape.built es index_name documents c actions c1).
Proof.
  intros C es index_name c. unfold Engine.create_index, try_M.
  split; [|split; [|split; [|split; [|split]]]].
  - intros msg c1 Hex. now rewrite (M_bind_raise _ _ _ _ _ Hex).
  - intros msg c1 c2 Hex Hdel. rewrite (M_bind_ret _ _ _ _ _ Hex).
    now rewrite (M_bind_raise _ _ _ _ _ Hdel).
  - intros c1 Hex. rewrite (M_bind_ret _ _ _ _ _ Hex).
    unfold mbind, M_bind, mret, M_ret.
    destruct (Engine.indices_create es index_name c1) as [[[]|msg] c2]; reflexivity.
  - intros msg c1 c2 c3 Hex Hdel Hcr. rewrite (M_bind_ret _ _ _ _ _ Hex).
    rewrite (M_bind_ret _ _ _ _ _ Hdel). now rewrite Hcr.
  - intros documents actions c1 Hbuilt.
    destruct (built_ids es index_name documents actions c c1 Hbuilt)
      as (Hid & Hdoc & Hindex).
    split; [exact Hid|]. split; [exact Hdoc|]. split; [exact Hindex|].
    rewrite (index_documents_built es index_name documents actions c c1 Hbuilt).
    split; intros ? c2 Hbulk; now rewrite Hbulk.
  - intros documents Hclock. now apply built_total.
Qed.

Lemma X14_witness :
  Engine.create_index Mock.down_client "fastapi_docs" tt
  = (Raise "Connection refused", tt)
  /\ Engine.index_documents Mock.down_client "fastapi_docs"
       [doc Sample.stored; doc Sample.stored] tt
     = (Raise "Connection refused", tt)
  /\ Engine.index_documents Mock.down_client "fastapi_docs" [] tt
     = (Raise "Connection refused", tt).
Proof.
  destruct (X14_write_failures_propagate unit Mock.down_client "fastapi_docs" tt)
    as (Hexists & _ & _ & _ & Hbulk & _).
  split; [|split].
  - apply Hexists. reflexivity.
  - assert (Hbuilt : Shape.built Mock.down_client "fastapi_docs"
                       [doc Sample.stored; doc Sample.stored] tt
                       [Engine.mkAction "fastapi_docs" "index#0" Sample.stored;
                        Engine.mkAction "fastapi_docs" "index#0" Sample.stored] tt).
    { exact (Shape.built_cons Mock.down_client "fastapi_docs" (doc Sample.stored)
               [doc Sample.stored] "2024-01-01T00:00:00" _ tt tt tt eq_refl
               (Shape.built_cons Mock.down_client "fastapi_docs" (doc Sample.stored)
                  [] "2024-01-01T00:00:00" _ tt tt tt eq_refl
                  (Shape.built_nil Mock.down_client "fastapi_docs" tt))). }
    destruct (Hbulk _ _ _ Hbuilt) as (_ & _ & _ & Hraise & _).
    apply Hraise. reflexivity.
  - destruct (Hbulk [] [] tt (Shape.built_nil _ _ tt)) as (_ & _ & _ & Hraise & _).
    apply Hraise. reflexivity.
Defined.

(** X15. The two reading methods of the engine return in every case,
    for a client whose call returns or raises an exception:
    [search_documents] returns the client's hits when the client's
    search returns and no hit when it raises; [get_document_by_id]
    returns the client's document when the client's lookup returns and
    [None] when it raises; the world is as the client's call left it.
    An empty list of tags is sent as no filter at all. *)
Theorem X15_read_failures_are_swallowed :
  forall (C : Type) (es : Engine.es_client C) (index_name query doc_id : string)
         (tags : option (list string)) (size : Z) (c : C),
    let body := Engine.mkBody query (Engine.tags_filter tags) size in
    (forall (hits : list hit) (c' : C),
        Engine.es_search es index_name body c = (Ret hits, c') ->
        Engine.search_documents es index_name query tags size c = (Ret hits, c'))
    /\ (forall (msg : string) (c' : C),
           Engine.es_search es index_name body c = (Raise msg, c') ->
           Engine.search_documents es index_name query tags size c = (Ret [], c'))
    /\ (exists hits c',
           Engine.search_documents es index_name query tags size c = (Ret hits, c'))
    /\ (forall (s : source) (c' : C),
           Engine.es_get es index_name doc_id c = (Ret s, c') ->
           Engine.get_document_by_id es index_name doc_id c = (Ret (Some s), c'))
    /\ (forall (msg : string) (c' : C),
           Engine.es_get es index_name doc_id c = (Raise msg, c') ->
           Engine.get_document_by_id es index_name doc_id c = (Ret None, c'))
    /\ (exists found c',
           Engine.get_document_by_id es index_name doc_id c = (Ret found, c'))
    /\ Engine.search_documents es index_name query (Some []) size
       = Engine.search_documents es index_name query None size.
Proof.
  intros C es index_name query doc_id tags size c body.
  split; [|split; [|split; [|split; [|split; [|split]]]]].
  - intros hits c' Hs. unfold Engine.search_documents, try_M. fold body. now rewrite Hs.
  - intros msg c' Hs. unfold Engine.search_documents, try_M. fold body. now rewrite Hs.
  - unfold Engine.search_documents, try_M.
    destruct (Engine.es_search es index_name _ c) as [[hits|msg] c']; simpl; eauto.
  - intros s c' Hg. unfold Engine.get_document_by_id, try_M, mbind, M_bind.
    now rewrite Hg.
  - intros msg c' Hg. unfold Engine.get_document_by_id, try_M, mbind, M_bind.
    now rewrite Hg.
  - unfold Engine.get_document_by_id, try_M, mbind, M_bind.
    destruct (Engine.es_get es index_name doc_id c) as [[s|msg] c']; simpl; eauto.
  - reflexivity.
Qed.

Lemma X15_witness :
  Engine.search_documents Mock.down_client "fastapi_docs" "async" (Some ["api"]) 10 tt
  = (Ret [], tt)
  /\ Engine.get_document_by_id Mock.down_client "fastapi_docs" "index#0" tt
     = (Ret None, tt)
  /\ Engine.get_document_by_id memory "fastapi_docs" "index#0" Sample.loaded_cluster
     = (Ret (Some Sample.stored), Sample.loaded_cluster)
  /\ Engine.search_documents memory "fastapi_docs" "modern" None 10 Sample.loaded_cluster
     = (Ret [Mock.to_hit Sample.stored], Sample.loaded_cluster).
Proof.
  split; [|split; [|split]].
  - destruct (X15_read_failures_are_swallowed unit Mock.down_client "fastapi_docs"
                "async" "index#0" (Some ["api"]) 10 tt) as (_ & Hraise & _).
    apply (Hraise Mock.unreachable tt). reflexivity.
  - destruct (X15_read_failures_are_swallowed unit Mock.down_client "fastapi_docs"
                "async" "index#0" None 10 tt) as (_ & _ & _ & _ & Hraise & _).
    apply (Hraise Mock.unreachable tt). reflexivity.
  - destruct (X15_read_failures_are_swallowed Mock.cluster memory "fastapi_docs"
                "modern" "index#0" None 10 Sample.loaded_cluster)
      as (_ & _ & _ & Hret & _).
    apply Hret. reflexivity.
  - destruct (X15_read_failures_are_swallowed Mock.cluster memory "fastapi_docs"
                "modern" "index#0" None 10 Sample.loaded_cluster)
      as (Hret & _).
    apply Hret. vm_compute. reflexivity.
Defined.

End EngineMore.

(** ** The query tools, further *)

Module ServerMore.
Import PyStr Interfaces Server.

Lemma len_append (a b : string) : len (a +:+ b) = len a + len b.
Proof. unfold len. induction a as [|x a IH]; simpl; [reflexivity|]. now rewrite IH. Qed.

Lemma len_substring_0 (n : nat) (s : string) :
  n <= len s -> len (substring 0 n s) = n.
Proof.
  unfold len. revert s. induction n as [|n IH]; intros s Hn.
  - destruct s; reflexivity.
  - destruct s as [|x s]; simpl in *; [lia|]. rewrite IH; lia.
Qed.

Lemma display_len (content : string) : len (display content) <= 503.
Proof.
  unfold display.
  destruct (Nat.ltb_spec 500 (len content)) as [Hlong|Hshort]; [|lia].
  rewrite len_append, len_substring_0 by lia. simpl. lia.
Qed.

(** X16. A search result never shows more than 503 characters of a
    document: a content of at most 500 characters is shown as it is, a
    longer one is cut to its first 500 characters followed by "...". *)
Theorem X16_display_is_bounded :
  forall content : string,
    len (display content) <= 503
    /\ (len content <= 500 -> display content = content)
    /\ (500 < len content ->
        display content = substring 0 500 content +:+ "..."
        /\ len (display content) = 503).
Proof.
  intros content. unfold display.
  destruct (Nat.ltb_spec 500 (len content)) as [Hlong|Hshort].
  - assert (Hlen : len (substring 0 500 content +:+ "...") = 503).
    { rewrite len_append, len_substring_0 by lia. reflexivity. }
    split; [lia|]. split; [lia|]. intros _. split; [reflexivity|exact Hlen].
  - split; [lia|]. split; [reflexivity|lia].
Qed.

Lemma X16_witness :
  display Sample.paragraph_a = Sample.paragraph_a.
Proof.
  apply (proj1 (proj2 (X16_display_is_bounded Sample.paragraph_a))).
  apply Nat.leb_le. reflexivity.
Defined.

Lemma format_hit_bounded (h : hit) :
  len (r_content (format_hit h)) <= 503 /\ r_highlights (format_hit h) <> Some [].
Proof.
  split.
  - apply display_len.
  - unfold format_hit. simpl. destruct (default [] (highlight h)); discriminate.
Qed.

(** X17. Whatever the engine does, the search tool returns, and what
    it returns is either the error "Search failed: ..." or a summary
    that repeats the query, counts its results, holds one result for
    each hit of the engine in the engine's order under the hit's id,
    shows at most 503 characters of each content and never carries an
    empty set of highlights. *)
Theorem X17_search_tool_summary :
  forall (C : Type) (engine : ISearchEngine C) (query : string)
         (tags : option (list string)) (max_results : Z) (c : C),
    exists r c',
      search_fastapi_docs engine query tags max_results c = (Ret r, c')
      /\ ((exists msg, r = Error ("Search failed: " +:+ msg))
          \/ (exists hits results,
                 search_documents engine query tags max_results c = (Ret hits, c')
                 /\ r = Results query (length results) results
                 /\ length results = length hits
                 /\ map r_id results = map (fun h => id (doc (_source h))) hits
                 /\ Forall (fun x => len (r_content x) <= 503) results
                 /\ Forall (fun x => r_highlights x <> Some []) results)).
Proof.
  intros C engine query tags max_results c.
  unfold search_fastapi_docs, try_M, mbind, M_bind.
  destruct (search_documents engine query tags max_results c) as [[hits|msg] c'];
    simpl.
  - exists (Results query (length (map format_hit hits)) (map format_hit hits)), c'.
    split; [reflexivity|]. right. exists hits, (map format_hit hits).
    split; [reflexivity|]. split; [reflexivity|]. split; [apply length_map|].
    split; [now rewrite map_map|].
    split; apply List.Forall_forall; intros x Hx;
      apply in_map_iff in Hx; destruct Hx as (h & <- & _);
      apply format_hit_bounded.
  - eexists _, c'. split; [reflexivity|]. left. eauto.
Qed.

End ServerMore.

(** ** The loader, further *)

Module LoaderMore.
Import PyStr Interfaces Server Loader.

Local Abbreviation memory := Mock.memory_client.

Lemma load_memory (index_name : string)
    (fetcher : IDocumentFetcher (gmap string (gmap string source)))
    (documents : list DocumentChunk) (c : gmap string (gmap string source)) :
  clone_or_update_repo fetcher c = (Ret tt, c) ->
  extract_documents fetcher c = (Ret documents, c) ->
  documents <> [] ->
  load_data fetcher (Engine.ElasticsearchEngine memory index_name) c
  = (Ret (Loaded "success"
            ("Successfully loaded " +:+ of_nat (length documents)
             +:+ " documentation chunks")
            (length documents)),
     fold_left
       (fun (c : gmap string (gmap string source)) a =>
          <[Engine._index a := Mock.store (default ∅ (c !! Engine._index a)) a]> c)
       (map (fun d => Engine.mkAction index_name (id d) (Shape.stamped d)) documents)
       (<[index_name := ∅]> c)).
Proof.
  intros Hclone Hextract Hne. unfold load_data, try_M.
  rewrite (EngineMore.M_bind_ret _ _ _ _ _ Hclone).
  rewrite (EngineMore.M_bind_ret _ _ _ _ _ Hextract).
  destruct documents as [|d ds]; [now destruct Hne|].
  cbn [Interfaces.create_index Interfaces.index_documents Engine.ElasticsearchEngine].
  rewrite (EngineMore.M_bind_ret _ _ _ _ _ (EngineMore.create_index_memory _ _)).
  rewrite (EngineMore.M_bind_ret _ _ _ _ _ (EngineMore.index_documents_memory _ _ _)).
  reflexivity.
Qed.

(** X18. Loading and looking up, end to end on an in-memory cluster:
    when the fetcher returns at least one chunk and the ids are
    pairwise distinct, [load_data] reports success with the number of
    chunks; afterwards the lookup tool returns each of the chunks under
    its id, and answers "not found" for every other id, also for one
    that was stored before the load. *)
Theorem X18_load_then_get :
  forall (index_name : string) (fetcher : IDocumentFetcher Mock.cluster)
         (documents : list DocumentChunk) (c : Mock.cluster),
    clone_or_update_repo fetcher c = (Ret tt, c) ->
    extract_documents fetcher c = (Ret documents, c) ->
    documents <> [] ->
    NoDup (map id documents) ->
    let engine := Engine.ElasticsearchEngine memory index_name in
    let after := snd (load_data fetcher engine c) in
    fst (load_data fetcher engine c)
    = Ret (Loaded "success"
             ("Successfully loaded " +:+ of_nat (length documents)
              +:+ " documentation chunks")
             (length documents))
    /\ (forall d : DocumentChunk,
           In d documents ->
           get_fastapi_doc_by_id engine (id d) after
           = (Ret (Document (Shape.stamped d)), after))
    /\ (forall doc_id : string,
           ~ In doc_id (map id documents) ->
           get_fastapi_doc_by_id engine doc_id after
           = (Ret (Error ("Document with ID '" +:+ doc_id +:+ "' not found")), after)).
Proof.
  intros index_name fetcher documents c Hclone Hextract Hne Hnd engine after.
  subst engine after.
  pose proof (load_memory index_name fetcher documents c Hclone Hextract Hne) as Hload.
  unfold Mock.cluster in *. rewrite Hload.
  cbn [fst snd]. split; [reflexivity|].
  set (after := fold_left _ _ _).
  assert (Hindex : after !! index_name
                   = Some (fold_left Mock.store
                             (map (fun d => Engine.mkAction index_name (id d)
                                              (Shape.stamped d)) documents) ∅)).
  { unfold after. rewrite (EngineMore.bulk_index_some index_name documents _ Hne).
    now rewrite lookup_insert_eq. }
  split.
  - intros d Hin. unfold get_fastapi_doc_by_id, try_M.
    cbn [Interfaces.get_document_by_id Engine.ElasticsearchEngine].
    erewrite EngineMore.M_bind_ret; [|apply EngineMore.get_memory].
    rewrite Hindex. cbn [mbind option_bind].
    now rewrite (EngineMore.stored_present index_name documents ∅ d Hnd Hin).
  - intros doc_id Hnot. unfold get_fastapi_doc_by_id, try_M.
    cbn [Interfaces.get_document_by_id Engine.ElasticsearchEngine].
    erewrite EngineMore.M_bind_ret; [|apply EngineMore.get_memory].
    rewrite Hindex. cbn [mbind option_bind].
    rewrite (EngineMore.stored_absent index_name doc_id documents ∅ Hnot).
    now rewrite lookup_empty.
Qed.

Lemma X18_witness :
  get_fastapi_doc_by_id (Engine.ElasticsearchEngine memory "fastapi_docs") "index#0"
    (snd (load_data
            {| clone_or_update_repo := fun c => (Ret tt, c);
               extract_documents := fun c => (Ret [doc Sample.stored], c) |}
            (Engine.ElasticsearchEngine memory "fastapi_docs") ∅))
  = (Ret (Document Sample.stored),
     snd (load_data
            {| clone_or_update_repo := fun c => (Ret tt, c);
               extract_documents := fun c => (Ret [doc Sample.stored], c) |}
            (Engine.ElasticsearchEngine memory "fastapi_docs") ∅)).
Proof.
  assert (Hnd : NoDup (map id [doc Sample.stored])).
  { apply NoDup_cons. split; [|apply NoDup_nil_2].
    intros Hin. apply elem_of_nil in Hin. exact Hin. }
  destruct (X18_load_then_get "fastapi_docs"
              {| clone_or_update_repo := fun c => (Ret tt, c);
                 extract_documents := fun c => (Ret [doc Sample.stored], c) |}
              [doc Sample.stored] ∅ eq_refl eq_refl ltac:(discriminate) Hnd)
    as (_ & Hget & _).
  apply (Hget (doc Sample.stored)). left. reflexivity.
Defined.

(** X19. [load_data] returns in every case, for a fetcher and an
    engine whose calls return or raise an exception, and it has three
    answers only, one for each way the steps can go.  The
    synchronisation returned and the collection returned the empty
    list: the answer is "No documents found in repository".  A step
    raised, the synchronisation, the collection, [create_index] or
    [index_documents]: the answer is "Data loading failed: <message>"
    with the message of that step.  All four steps returned and the
    collection was not empty: the answer is the success report, where
    the count in the message and [document_count] are both the length
    of the list the collection returned, which is not zero. *)
Theorem X19_load_data_answers :
  forall (C : Type) (fetcher : IDocumentFetcher C) (search_engine : ISearchEngine C)
         (c : C),
    exists r c',
      load_data fetcher search_engine c = (Ret r, c')
      /\ ((exists c1,
              clone_or_update_repo fetcher c = (Ret tt, c1)
              /\ extract_documents fetcher c1 = (Ret [], c')
              /\ r = Error "No documents found in repository")
          \/ (exists msg,
                r = Error ("Data loading failed: " +:+ msg)
                /\ (clone_or_update_repo fetcher c = (Raise msg, c')
                    \/ (exists c1,
                          clone_or_update_repo fetcher c = (Ret tt, c1)
                          /\ extract_documents fetcher c1 = (Raise msg, c'))
                    \/ (exists documents c1 c2,
                          clone_or_update_repo fetcher c = (Ret tt, c1)
                          /\ extract_documents fetcher c1 = (Ret documents, c2)
                          /\ documents <> []
                          /\ Interfaces.create_index search_engine c2 = (Raise msg, c'))
                    \/ (exists documents c1 c2 c3,
                          clone_or_update_repo fetcher c = (Ret tt, c1)
                          /\ extract_documents fetcher c1 = (Ret documents, c2)
                          /\ documents <> []
                          /\ Interfaces.create_index search_engine c2 = (Ret tt, c3)
                          /\ Interfaces.index_documents search_engine documents c3
                             = (Raise msg, c'))))
          \/ (exists documents c1 c2 c3,
                clone_or_update_repo fetcher c = (Ret tt, c1)
                /\ extract_documents fetcher c1 = (Ret documents, c2)
                /\ documents <> []
                /\ 0 < length documents
                /\ Interfaces.create_index search_engine c2 = (Ret tt, c3)
                /\ Interfaces.index_documents search_engine documents c3 = (Ret tt, c')
                /\ r = Loaded "success"
                         ("Successfully loaded " +:+ of_nat (length documents)
                          +:+ " documentation chunks")
                         (length documents))).
Proof.
  intros C fetcher search_engine c.
  unfold load_data, try_M, mbind, M_bind.
  destruct (clone_or_update_repo fetcher c) as [[[]|msg] c1] eqn:Hclone; simpl.
  2:{ eexists _, _. split; [reflexivity|]. right. left. exists msg.
      split; [reflexivity|]. now left. }
  destruct (extract_documents fetcher c1) as [[[|d ds]|msg] c2] eqn:Hextract; simpl.
  - eexists _, _. split; [reflexivity|]. left. exists c1. now repeat split.
  - destruct (Interfaces.create_index search_engine c2) as [[[]|msg] c3] eqn:Hcreate;
      simpl.
    + destruct (Interfaces.index_documents search_engine (d :: ds) c3)
        as [[[]|msg] c4] eqn:Hindex; simpl.
      * eexists _, _. split; [reflexivity|]. right. right.
        exists (d :: ds), c1, c2, c3.
        split; [reflexivity|]. split; [exact Hextract|]. split; [discriminate|].
        split; [simpl; lia|]. split; [exact Hcreate|]. split; [exact Hindex|].
        reflexivity.
      * eexists _, _. split; [reflexivity|]. right. left. exists msg.
        split; [reflexivity|]. right. right. right.
        exists (d :: ds), c1, c2, c3.
        split; [reflexivity|]. split; [exact Hextract|]. split; [discriminate|].
        split; [exact Hcreate|exact Hindex].
    + eexists _, _. split; [reflexivity|]. right. left. exists msg.
      split; [reflexivity|]. right. right. left.
      exists (d :: ds), c1, c2.
      split; [reflexivity|]. split; [exact Hextract|]. split; [discriminate|].
      exact Hcreate.
  - eexists _, _. split; [reflexivity|]. right. left. exists msg.
    split; [reflexivity|]. right. left. exists c1. split; [reflexivity|exact Hextract].
Qed.

(** X20. The order of the engine calls of [load_data], as an engine
    that records its calls sees it: nothing, or [create_index] alone,
    or [create_index] followed by [index_documents]; never a query,
    never [index_documents] first or twice; and success is reported
    only after both. *)
Theorem X20_engine_calls_in_order :
  forall (C : Type) (fetcher : IDocumentFetcher C) (search_engine : ISearchEngine C)
         (c : C),
    exists r c' calls,
      load_data (Mock.beside fetcher) (Mock.recording search_engine) (c, [])
      = (Ret r, (c', calls))
      /\ (calls = [] \/ calls = ["create_index"]
          \/ calls = ["create_index"; "index_documents"])
      /\ ((exists status message n, r = Loaded status message n) ->
          calls = ["create_index"; "index_documents"]).
Proof.
  intros C fetcher search_engine c.
  unfold load_data, try_M, mbind, M_bind. simpl. unfold Mock.unrecorded. simpl.
  destruct (clone_or_update_repo fetcher c) as [[[]|msg] c1]; simpl;
    [|eexists _, _, _; split; [reflexivity|]; split;
      [now left|intros (? & ? & ? & [=])]].
  destruct (extract_documents fetcher c1) as [[[|d ds]|msg] c2]; simpl;
    [eexists _, _, _; split; [reflexivity|]; split;
      [now left|intros (? & ? & ? & [=])]
    | |eexists _, _, _; split; [reflexivity|]; split;
      [now left|intros (? & ? & ? & [=])]].
  unfold Mock.recorded. simpl.
  destruct (Interfaces.create_index search_engine c2) as [[[]|msg] c3]; simpl;
    [|eexists _, _, _; split; [reflexivity|]; split;
      [right; now left|intros (? & ? & ? & [=])]].
  destruct (Interfaces.index_documents search_engine (d :: ds) c3) as [[[]|msg] c4];
    simpl; eexists _, _, _; (split; [reflexivity|]); split;
    try (right; now right); intros _; reflexivity.
Qed.

Lemma X20_witness :
  exists r calls,
    load_data
      (Mock.beside {| clone_or_update_repo := fun c => (Ret tt, c);
                      extract_documents := fun c => (Ret [doc Sample.stored], c) |})
      (Mock.recording
         {| Interfaces.create_index := fun c => (Ret tt, c);
            Interfaces.index_documents := fun _ c => (Ret tt, c);
            Interfaces.search_documents := fun _ _ _ c => (Ret [], c);
            Interfaces.get_document_by_id := fun _ c => (Ret None, c) |})
      (tt, [])
    = (Ret r, (tt, calls))
    /\ calls = ["create_index"; "index_documents"].
Proof.
  destruct (X20_engine_calls_in_order unit
              {| clone_or_update_repo := fun c => (Ret tt, c);
                 extract_documents := fun c => (Ret [doc Sample.stored], c) |}
              {| Interfaces.create_index := fun c => (Ret tt, c);
                 Interfaces.index_documents := fun _ c => (Ret tt, c);
                 Interfaces.search_documents := fun _ _ _ c => (Ret [], c);
                 Interfaces.get_document_by_id := fun _ c => (Ret None, c) |}
              tt) as (r & [] & calls & Heq & _ & Hloaded).
  exists r, calls. split; [exact Heq|].
  apply Hloaded. injection Heq as <- _. eauto.
Defined.

(** X21. The first step of [load_data] that raises ends it: a failing
    synchronisation is reported with its message and neither the
    collection nor the engine is reached; a failing [create_index] is
    reported and [index_documents] is not called; a failing
    [index_documents] is reported and the world stays as the failed
    call left it, the index that [create_index] made anew included. *)
Theorem X21_first_failure_ends_the_load :
  forall (C : Type) (fetcher : IDocumentFetcher C) (search_engine : ISearchEngine C)
         (c : C),
    (forall (msg : string) (c1 : C),
        clone_or_update_repo fetcher c = (Raise msg, c1) ->
        load_data fetcher search_engine c
        = (Ret (Error ("Data loading failed: " +:+ msg)), c1)
        /\ load_data (Mock.beside fetcher) (Mock.recording search_engine) (c, [])
           = (Ret (Error ("Data loading failed: " +:+ msg)), (c1, [])))
    /\ (forall (msg : string) (d : DocumentChunk) (ds : list DocumentChunk)
               (c1 c2 c3 : C),
           clone_or_update_repo fetcher c = (Ret tt, c1) ->
           extract_documents fetcher c1 = (Ret (d :: ds), c2) ->
           Interfaces.create_index search_engine c2 = (Raise msg, c3) ->
           load_data fetcher search_engine c
           = (Ret (Error ("Data loading failed: " +:+ msg)), c3)
           /\ load_data (Mock.beside fetcher) (Mock.recording search_engine) (c, [])
              = (Ret (Error ("Data loading failed: " +:+ msg)), (c3, ["create_index"])))
    /\ (forall (msg : string) (d : DocumentChunk) (ds : list DocumentChunk)
               (c1 c2 c3 c4 : C),
           clone_or_update_repo fetcher c = (Ret tt, c1) ->
           extract_documents fetcher c1 = (Ret (d :: ds), c2) ->
           Interfaces.create_index search_engine c2 = (Ret tt, c3) ->
           Interfaces.index_documents search_engine (d :: ds) c3 = (Raise msg, c4) ->
           load_data fetcher search_engine c
           = (Ret (Error ("Data loading failed: " +:+ msg)), c4)).
Proof.
  intros C fetcher search_engine c. split; [|split].
  - intros msg c1 Hclone. split.
    + unfold load_data, try_M, mbind, M_bind. now rewrite Hclone.
    + unfold load_data, try_M, mbind, M_bind. simpl. unfold Mock.unrecorded. simpl.
      now rewrite Hclone.
  - intros msg d ds c1 c2 c3 Hclone Hextract Hcreate. split.
    + unfold load_data, try_M, mbind, M_bind.
      rewrite Hclone, Hextract, Hcreate. reflexivity.
    + unfold load_data, try_M, mbind, M_bind. simpl.
      unfold Mock.unrecorded, Mock.recorded. simpl.
      rewrite Hclone. simpl. rewrite Hextract. simpl. rewrite Hcreate. reflexivity.
  - intros msg d ds c1 c2 c3 c4 Hclone Hextract Hcreate Hindex.
    unfold load_data, try_M, mbind, M_bind.
    rewrite Hclone, Hextract, Hcreate, Hindex. reflexivity.
Qed.

Lemma X21_witness :
  load_data
    {| clone_or_update_repo := fun c => (Raise "Git error", c);
       extract_documents := fun c => (Ret [], c) |}
    (Engine.ElasticsearchEngine memory "fastapi_docs") Sample.loaded_cluster
  = (Ret (Error "Data loading failed: Git error"), Sample.loaded_cluster)
  /\ load_data
       {| clone_or_update_repo := fun c => (Ret tt, c);
          extract_documents := fun c => (Ret [doc Sample.stored], c) |}
       (Engine.ElasticsearchEngine Mock.down_client "fastapi_docs") tt
     = (Ret (Error "Data loading failed: Connection refused"), tt).
Proof.
  split.
  - destruct (X21_first_failure_ends_the_load Mock.cluster
                {| clone_or_update_repo := fun c => (Raise "Git error", c);
                   extract_documents := fun c => (Ret [], c) |}
                (Engine.ElasticsearchEngine memory "fastapi_docs")
                Sample.loaded_cluster) as (Hclone & _ & _).
    apply (Hclone "Git error" Sample.loaded_cluster). reflexivity.
  - destruct (X21_first_failure_ends_the_load unit
                {| clone_or_update_repo := fun c => (Ret tt, c);
                   extract_documents := fun c => (Ret [doc Sample.stored], c) |}
                (Engine.ElasticsearchEngine Mock.down_client "fastapi_docs") tt)
      as (_ & Hcreate & _).
    apply (Hcreate "Connection refused" (doc Sample.stored) [] tt tt tt); reflexivity.
Defined.

End LoaderMore.

(** ** The working copy and the entry points *)

Module EntryMore.
Import PyStr Interfaces Server.

(** X22. [clone_or_update_repo] pulls a working copy that exists and
    clones one that does not, never both: when the path exists its
    outcome and its world are those of the pull, and when the path is
    missing and the parent directories are made they are those of the
    clone; a failure of git is raised again with its message. *)
Theorem X22_pull_or_clone :
  forall (C : Type) (git : Repo.git_client C) (c : C),
    (forall c1 : C,
        Repo.path_exists git c = (Ret true, c1) ->
        Repo.clone_or_update_repo git c = Repo.pull git c1)
    /\ (forall c1 c2 : C,
           Repo.path_exists git c = (Ret false, c1) ->
           Repo.mkdir_parents git c1 = (Ret tt, c2) ->
           Repo.clone_or_update_repo git c = Repo.clone_from git c2)
    /\ (forall (msg : string) (c1 c2 : C),
           Repo.path_exists git c = (Ret false, c1) ->
           Repo.mkdir_parents git c1 = (Raise msg, c2) ->
           Repo.clone_or_update_repo git c = (Raise msg, c2)).
Proof.
  intros C git c. unfold Repo.clone_or_update_repo, try_M, mbind, M_bind.
  split; [|split].
  - intros c1 Hex. rewrite Hex.
    destruct (Repo.pull git c1) as [[[]|msg] c2]; reflexivity.
  - intros c1 c2 Hex Hmk. rewrite Hex, Hmk.
    destruct (Repo.clone_from git c2) as [[[]|msg] c3]; reflexivity.
  - intros msg c1 c2 Hex Hmk. now rewrite Hex, Hmk.
Qed.

Lemma X22_witness :
  Repo.clone_or_update_repo
    (Repo.mkGit (list string)
       (fun t => (Ret false, t ++ ["exists"]))
       (fun t => (Ret tt, t ++ ["pull"]))
       (fun t => (Ret tt, t ++ ["mkdir"]))
       (fun t => (Ret tt, t ++ ["clone_from"]))
       (fun _ => None))
    []
  = (Ret tt, ["exists"; "mkdir"; "clone_from"]).
Proof.
  destruct (X22_pull_or_clone (list string)
              (Repo.mkGit (list string)
                 (fun t => (Ret false, t ++ ["exists"]))
                 (fun t => (Ret tt, t ++ ["pull"]))
                 (fun t => (Ret tt, t ++ ["mkdir"]))
                 (fun t => (Ret tt, t ++ ["clone_from"]))
                 (fun _ => None))
              []) as (_ & Hclone & _).
  rewrite (Hclone ["exists"] ["exists"; "mkdir"] eq_refl eq_refl). reflexivity.
Defined.

Lemma no_chunk_from_failures `{PySetOrder} (repo_path base_docs_url : string)
    (files : list Fetcher.md_file) :
  Forall (fun f => exists msg, Fetcher.rendered f = Raise msg) files ->
  fst (Fetcher.extract_documents repo_path base_docs_url (Some files)) = [].
Proof.
  intros Hall. simpl. rewrite FetcherFacts.walk_docs. simpl.
  induction files as [|f fs IH]; [reflexivity|].
  apply Forall_cons in Hall. destruct Hall as [[msg Hf] Hfs].
  simpl. rewrite (IH Hfs), app_nil_r.
  unfold Fetcher.file_chunks, Fetcher.process, Processor.process_markdown_file.
  now rewrite Hf.
Qed.

Lemma load_data_empty {C} (fetcher : IDocumentFetcher C)
    (search_engine : ISearchEngine C) (c c1 c2 : C) :
  clone_or_update_repo fetcher c = (Ret tt, c1) ->
  extract_documents fetcher c1 = (Ret [], c2) ->
  Loader.load_data fetcher search_engine c
  = (Ret (Error "No documents found in repository"), c2)
  /\ Loader.load_data (Mock.beside fetcher) (Mock.recording search_engine) (c, [])
     = (Ret (Error "No documents found in repository"), (c2, [])).
Proof.
  intros Hclone Hextract. split.
  - unfold Loader.load_data, try_M, mbind, M_bind. now rewrite Hclone, Hextract.
  - unfold Loader.load_data, try_M, mbind, M_bind. simpl.
    unfold Mock.unrecorded. simpl. rewrite Hclone. simpl. now rewrite Hextract.
Qed.

(** X23. A repository without documents is reported, not indexed: when
    the synchronisation returns and the working copy has no [docs/en]
    directory, or every Markdown file under it fails to be read or
    rendered, [load_data] over the fetcher answers "No documents found
    in repository" and leaves the world as the synchronisation left
    it, without any call to the engine. *)
Theorem X23_no_documents_no_indexing :
  forall (order : PySetOrder) (C : Type) (git : Repo.git_client C)
         (repo_path base_docs_url : string) (search_engine : ISearchEngine C)
         (c c1 : C),
    Repo.clone_or_update_repo git c = (Ret tt, c1) ->
    (Repo.tree git c1 = None
     \/ exists files,
          Repo.tree git c1 = Some files
          /\ Forall (fun f => exists msg, Fetcher.rendered f = Raise msg) files) ->
    Loader.load_data (Repo.FastAPIDocumentFetcher git repo_path base_docs_url)
      search_engine c
    = (Ret (Error "No documents found in repository"), c1)
    /\ Loader.load_data
         (Mock.beside (Repo.FastAPIDocumentFetcher git repo_path base_docs_url))
         (Mock.recording search_engine) (c, [])
       = (Ret (Error "No documents found in repository"), (c1, [])).
Proof.
  intros order C git repo_path base_docs_url search_engine c c1 Hsync Hnone.
  assert (Hdocs : Repo.extract_documents git repo_path base_docs_url c1 = (Ret [], c1)).
  { unfold Repo.extract_documents.
    destruct Hnone as [->|(files & -> & Hall)]; [reflexivity|].
    now rewrite no_chunk_from_failures. }
  apply (load_data_empty _ _ c c1 c1); assumption.
Qed.

Lemma X23_witness :
  Loader.load_data
    (Repo.FastAPIDocumentFetcher
       (Repo.mkGit Mock.cluster
          (fun c => (Ret true, c)) (fun c => (Ret tt, c))
          (fun c => (Ret tt, c)) (fun c => (Ret tt, c))
          (fun _ => Some [Fetcher.mkFile [] "index.md" (Raise "not UTF-8")]))
       "/tmp/fastapi_repo" "https://fastapi.tiangolo.com")
    (Engine.ElasticsearchEngine Mock.memory_client "fastapi_docs")
    Sample.loaded_cluster
  = (Ret (Error "No documents found in repository"), Sample.loaded_cluster).
Proof.
  refine (proj1 (X23_no_documents_no_indexing canonical_order Mock.cluster
                   (Repo.mkGit Mock.cluster
                      (fun c => (Ret true, c)) (fun c => (Ret tt, c))
                      (fun c => (Ret tt, c)) (fun c => (Ret tt, c))
                      (fun _ => Some [Fetcher.mkFile [] "index.md" (Raise "not UTF-8")]))
                   "/tmp/fastapi_repo" "https://fastapi.tiangolo.com"
                   (Engine.ElasticsearchEngine Mock.memory_client "fastapi_docs")
                   Sample.loaded_cluster Sample.loaded_cluster eq_refl _)).
  right. eexists. split; [reflexivity|].
  apply List.Forall_cons; [|apply List.Forall_nil]. eexists. reflexivity.
Defined.

(** X24. The refresh tool of the server entry point and [load_data] do
    the same with the same fetcher and engine: they leave the same
    world, and their reports say the same thing, the one with "Refresh
    failed" and "Successfully indexed" where the other has "Data
    loading failed" and "Successfully loaded". *)
Theorem X24_two_refreshes_agree :
  forall (C : Type) (fetcher : IDocumentFetcher C) (search_engine : ISearchEngine C)
         (c : C),
    exists r r' c',
      Loader.load_data fetcher search_engine c = (Ret r, c')
      /\ MonolithTools.refresh_fastapi_docs fetcher search_engine c = (Ret r', c')
      /\ Shape.same_report r r'.
Proof.
  intros C fetcher search_engine c.
  unfold Loader.load_data, MonolithTools.refresh_fastapi_docs, try_M, mbind, M_bind.
  destruct (clone_or_update_repo fetcher c) as [[[]|msg] c1]; simpl;
    [|eexists _, _, _; split; [reflexivity|]; split; [reflexivity|constructor]].
  destruct (extract_documents fetcher c1) as [[[|d ds]|msg] c2]; simpl;
    [eexists _, _, _; split; [reflexivity|]; split; [reflexivity|constructor]
    | |eexists _, _, _; split; [reflexivity|]; split; [reflexivity|constructor]].
  destruct (create_index search_engine c2) as [[[]|msg] c3]; simpl;
    [|eexists _, _, _; split; [reflexivity|]; split; [reflexivity|constructor]].
  destruct (index_documents search_engine (d :: ds) c3) as [[[]|msg] c4]; simpl;
    eexists _, _, _; (split; [reflexivity|]); (split; [reflexivity|]).
  - apply (Shape.same_loaded (S (length ds))).
  - constructor.
Qed.

(** X25. Start-up never raises and loads only a missing index: when the
    index is reported present the loader is not run and the world is
    as the check and the closing of the client left it; when it is
    reported absent the loader runs once and, its answer being an
    error or a success report, the client is closed after it; when the
    check itself raises nothing else is done. *)
Theorem X25_startup_loads_only_a_missing_index :
  forall (C : Type) (es : Engine.es_client C) (es_close : M C unit)
         (data_loader : Tools.IDataLoader C) (c : C),
    (exists c', Main.startup_initialization es es_close data_loader c = (Ret tt, c'))
    /\ (forall c1 : C,
           Engine.indices_exists es Main.INDEX_NAME c = (Ret true, c1) ->
           snd (Main.startup_initialization es es_close data_loader c)
           = snd (es_close c1))
    /\ (forall (c1 c2 : C) (r : response),
           Engine.indices_exists es Main.INDEX_NAME c = (Ret false, c1) ->
           Tools.load_data data_loader c1 = (Ret r, c2) ->
           Main.report r = Ret tt ->
           snd (Main.startup_initialization es es_close data_loader c)
           = snd (es_close c2))
    /\ (forall (msg : string) (c1 : C),
           Engine.indices_exists es Main.INDEX_NAME c = (Raise msg, c1) ->
           Main.startup_initialization es es_close data_loader c = (Ret tt, c1)).
Proof.
  intros C es es_close data_loader c.
  unfold Main.startup_initialization, try_M, mbind, M_bind, mret, M_ret, pure_step.
  split; [|split; [|split]].
  - destruct (Engine.indices_exists es Main.INDEX_NAME c) as [[[|]|msg] c1];
      [| |eauto].
    + destruct (es_close c1) as [[[]|msg] c2]; eauto.
    + destruct (Tools.load_data data_loader c1) as [[r|msg] c2]; [|eauto].
      destruct (Main.report r) as [[]|msg]; [|eauto].
      destruct (es_close c2) as [[[]|msg] c3]; eauto.
  - intros c1 Hex. rewrite Hex.
    destruct (es_close c1) as [[[]|msg] c2]; reflexivity.
  - intros c1 c2 r Hex Hload Hreport. rewrite Hex, Hload, Hreport.
    destruct (es_close c2) as [[[]|msg] c3]; reflexivity.
  - intros msg c1 Hex. now rewrite Hex.
Qed.

Lemma X25_witness :
  snd (Main.startup_initialization Mock.memory_client (fun c => (Ret tt, c))
         (Tools.FastAPIDataLoader
            {| clone_or_update_repo := fun c => (Ret tt, c);
               extract_documents := fun c => (Ret [], c) |}
            (Engine.ElasticsearchEngine Mock.memory_client "fastapi_docs"))
         Sample.loaded_cluster)
  = Sample.loaded_cluster.
Proof.
  destruct (X25_startup_loads_only_a_missing_index Mock.cluster Mock.memory_client
              (fun c => (Ret tt, c))
              (Tools.FastAPIDataLoader
                 {| clone_or_update_repo := fun c => (Ret tt, c);
                    extract_documents := fun c => (Ret [], c) |}
                 (Engine.ElasticsearchEngine Mock.memory_client "fastapi_docs"))
              Sample.loaded_cluster) as (_ & Hpresent & _).
  rewrite (Hpresent Sample.loaded_cluster); reflexivity.
Defined.

(** X26. The command-line loader never raises and returns [True]
    exactly when the loader returned a success report; it returns
    [False] for an error report, for a loader that raised and for an
    answer that has no message to log.  The two closes of its [finally]
    block share one [try]: when closing the fetcher raises, the engine
    is not closed. *)
Theorem X26_cli_exit_status :
  forall (C : Type) (data_loader : M C response) (fetcher_close engine_close : M C unit)
         (c : C),
    (exists b c',
        Cli.load_data data_loader fetcher_close engine_close c = (Ret b, c')
        /\ (b = true <-> exists status message n c1,
                            data_loader c = (Ret (Loaded status message n), c1)))
    /\ (forall (msg : string) (c2 : C),
           fetcher_close (snd (data_loader c)) = (Raise msg, c2) ->
           snd (Cli.load_data data_loader fetcher_close engine_close c) = c2).
Proof.
  intros C data_loader fetcher_close engine_close c.
  unfold Cli.load_data, Cli.cleanup, try_M, mbind, M_bind, mret, M_ret, pure_step.
  split.
  - destruct (data_loader c) as [[r|msg] c1]; simpl.
    + destruct r as [e|q n rs|d|st m n]; simpl;
        (destruct (fetcher_close c1) as [[[]|m1] c2]; simpl;
         [destruct (engine_close c2) as [[[]|m2] c3]; simpl|]);
        eexists _, _; (split; [reflexivity|]);
        (split; [try discriminate; intros _; eauto
                |try reflexivity; intros (? & ? & ? & ? & [=])]).
    + destruct (fetcher_close c1) as [[[]|m1] c2]; simpl;
        [destruct (engine_close c2) as [[[]|m2] c3]; simpl|];
        eexists _, _; (split; [reflexivity|]); (split;
          [discriminate|intros (? & ? & ? & ? & [=])]).
  - intros msg c2 Hclose.
    destruct (data_loader c) as [[r|m] c0]; simpl in *;
      [destruct (Cli.verdict r) as [b|e]|]; simpl; now rewrite Hclose.
Qed.

Lemma X26_witness :
  snd (Cli.load_data
         (fun t => (Ret (Loaded "success" "Successfully loaded 1 documentation chunks" 1),
                    t ++ ["load_data"]))
         (fun t => (Raise "already closed", t ++ ["fetcher.close"]))
         (fun t => (Ret tt, t ++ ["search_engine.close"]))
         [])
  = ["load_data"; "fetcher.close"].
Proof.
  destruct (X26_cli_exit_status (list string)
              (fun t => (Ret (Loaded "success"
                                "Successfully loaded 1 documentation chunks" 1),
                         t ++ ["load_data"]))
              (fun t => (Raise "already closed", t ++ ["fetcher.close"]))
              (fun t => (Ret tt, t ++ ["search_engine.close"]))
              []) as [_ Hskip].
  apply (Hskip "already closed" ["load_data"; "fetcher.close"]). reflexivity.
Defined.

End EntryMore.
